(** * dialogue_generator.py: the generate / validate / retry loop and its
      checkpoint store, as a shallow embedding.

    The Python class [DialogueGenerator] talks to three outside parties: a
    language model ([llm.with_structured_output(Experiment)]), an Oracle
    database reached through [oracledb], and the file system (the JSON
    checkpoint and the JSON connection settings).  The embedding keeps the
    methods as functions in a state-and-exception monad over a [World] made
    of the file system and a chronological trace of everything observable:
    console lines, model invocations and database calls, each recorded with
    the answer it received.  The outside parties are answer functions of the
    history so far, so nothing is assumed about them (a model may answer the
    same prompt differently every time).

    Python [str] values are modelled by [string], one character per code
    point below 256.  A string read from a JSON file may besides hold lone
    surrogates, which matters when it is written back ([JLone]). *)

From Stdlib Require Import Ascii String.
From stdpp Require Import base strings gmap list pretty.

Local Open Scope char_scope.

(** ** Python string methods used by the source *)

Module PyStr.

(** [str.isspace] on one character, restricted to code points below 256:
    TAB, LF, VT, FF, CR, FS, GS, RS, US, SPACE, NEL and NBSP. *)
Definition isspace (c : ascii) : bool :=
  match c with
  | "009" | "010" | "011" | "012" | "013"
  | "028" | "029" | "030" | "031" | " " | "133" | "160" => true
  | _ => false
  end.

Definition is_semicolon (c : ascii) : bool :=
  match c with ";" => true | _ => false end.

(** [s.lstrip(...)]: drop the longest prefix made of characters in [p]. *)
Fixpoint lstrip_by (p : ascii → bool) (s : string) : string :=
  match s with
  | EmptyString => EmptyString
  | String c s' => if p c then lstrip_by p s' else s
  end.

(** [s.rstrip(...)]: drop the longest suffix made of characters in [p]. *)
Fixpoint rstrip_by (p : ascii → bool) (s : string) : string :=
  match s with
  | EmptyString => EmptyString
  | String c s' =>
      match rstrip_by p s' with
      | EmptyString => if p c then EmptyString else String c EmptyString
      | r => String c r
      end
  end.

(** [s.strip()] *)
Definition strip (s : string) : string :=
  rstrip_by isspace (lstrip_by isspace s).

(** [s.rstrip(';')] *)
Definition rstrip_semicolons (s : string) : string :=
  rstrip_by is_semicolon s.

(** The last character of a string, if any. *)
Fixpoint last_char (s : string) : option ascii :=
  match s with
  | EmptyString => None
  | String c EmptyString => Some c
  | String _ s' => last_char s'
  end.

(** [c * n] for a one-character string. *)
Fixpoint repeat_char (c : ascii) (n : nat) : string :=
  match n with
  | O => EmptyString
  | S n' => String c (repeat_char c n')
  end.

(** [needle in haystack] on strings. *)
Fixpoint contains (needle haystack : string) : bool :=
  String.prefix needle haystack ||
  match haystack with
  | EmptyString => false
  | String _ rest => contains needle rest
  end.

Definition nl : string := String "010" EmptyString.

End PyStr.

Local Close Scope char_scope.

(** The validator's preparation of one statement, line 171:
    [sql = sql.strip().rstrip(';')]. *)
Definition prepare_sql (golden_sql : string) : string :=
  PyStr.rstrip_semicolons (PyStr.strip golden_sql).

(** What section 4.2 step 3 of the specification words instead: "strip the
    SQL, remove a single trailing statement terminator if present".  Kept
    only to be compared with [prepare_sql]. *)
Fixpoint spec_drop_terminator (s : string) : string :=
  match s with
  | EmptyString => EmptyString
  | String c EmptyString => if PyStr.is_semicolon c then EmptyString else s
  | String c s' => String c (spec_drop_terminator s')
  end.

Definition spec_prepare_sql (golden_sql : string) : string :=
  spec_drop_terminator (PyStr.strip golden_sql).


(** ** Values, exceptions and outcomes *)

(** What [json.load] can return.  Numbers are kept as integers: no operation
    of the source looks inside a number.  A JSON text may escape half of a
    surrogate pair (["\ud800"]); [json.load] accepts it, and the [str] it
    makes cannot be encoded as UTF-8 again.  [JLone before after more] is
    such a string: the text [before], a lone surrogate, the text [after],
    and for each element of [more] one more surrogate followed by that text.
    The keys of objects are ordinary text. *)
#[warnings="-register-all"]
Inductive json :=
  | JNull
  | JBool (b : bool)
  | JNum (n : Z)
  | JStr (s : string)
  | JLone (before after : string) (more : list string)
  | JArr (items : list json)
  | JObj (fields : list (string * json)).

(** The Python exceptions that can travel through the source.  [Failure]
    stands for whatever an outside party raises; it carries [str(e)]. *)
Inductive exn :=
  | TypeError
  | AttributeError
  | KeyError (key : string)
  | JSONDecodeError
  | FileNotFoundError
  | OSError
  | UnicodeEncodeError
  | FormatError
  | Failure (msg : string).

Inductive outcome (A : Type) :=
  | Ret (a : A)
  | Raise (e : exn).
Arguments Ret {A} a.
Arguments Raise {A} e.

(** [except json.JSONDecodeError] *)
Definition is_json_decode_error (e : exn) : bool :=
  match e with JSONDecodeError => true | _ => false end.

(** [except (json.JSONDecodeError, FileNotFoundError)] *)
Definition is_decode_or_missing (e : exn) : bool :=
  match e with JSONDecodeError | FileNotFoundError => true | _ => false end.

Module Dict.
(** A Python [dict] with string keys, in insertion order; the first
    binding of a key is the live one. *)
Fixpoint get {V} (k : string) (d : list (string * V)) : option V :=
  match d with
  | [] => None
  | (k', v) :: d' => if decide (k' = k) then Some v else get k d'
  end.

(** [d[k] = v] for a key already present. *)
Fixpoint set {V} (k : string) (v : V) (d : list (string * V))
  : list (string * V) :=
  match d with
  | [] => [(k, v)]
  | (k', v') :: d' =>
      if decide (k' = k) then (k, v) :: d' else (k', v') :: set k v d'
  end.
End Dict.

Module Json.
Definition is_str (s : string) (v : json) : bool :=
  match v with JStr s' => bool_decide (s' = s) | _ => false end.

(** [key in v] for a string [key]. *)
Definition contains (key : string) (v : json) : outcome bool :=
  match v with
  | JObj fields =>
    Ret (match Dict.get key fields with Some _ => true | None => false end)
  | JArr items => Ret (existsb (is_str key) items)
  | JStr s => Ret (PyStr.contains key s)
  | JLone before after more =>
      Ret (existsb (PyStr.contains key) (before :: after :: more))
  | JNull | JBool _ | JNum _ => Raise TypeError
  end.

(** [v[key]] for a string [key]. *)
Definition subscript (key : string) (v : json) : outcome json :=
  match v with
  | JObj fields =>
      match Dict.get key fields with
      | Some x => Ret x
      | None => Raise (KeyError key)
      end
  | _ => Raise TypeError
  end.

(** The one-character strings of a text, and of a lone surrogate. *)
Definition characters (s : string) : list json :=
  (λ c, JStr (String c EmptyString)) <$> list_ascii_of_string s.

Definition surrogate : json := JLone "" "" [].

(** [list(v)]: the elements a [for] loop over [v] visits. *)
Definition iterate (v : json) : outcome (list json) :=
  match v with
  | JArr items => Ret items
  | JObj fields => Ret (JStr <$> fields.*1)
  | JStr s => Ret (characters s)
  | JLone before after more =>
      Ret (characters before ++ surrogate :: characters after
             ++ concat ((λ s, surrogate :: characters s) <$> more))
  | JNull | JBool _ | JNum _ => Raise TypeError
  end.

(** [v.get(key) == wanted] for a string [wanted]. *)
Definition get_equals (key wanted : string) (v : json) : outcome bool :=
  match v with
  | JObj fields =>
      Ret (match Dict.get key fields with
           | Some x => is_str wanted x
           | None => false
           end)
  | _ => Raise AttributeError
  end.

(** Whether [json.dump(v, f, ensure_ascii=False)] can write [v] to a file
    opened with [encoding='utf-8']: no string of [v] holds a lone
    surrogate. *)
Fixpoint encodable (v : json) : bool :=
  match v with
  | JLone _ _ _ => false
  | JArr items => forallb encodable items
  | JObj fields => forallb (λ kv, encodable kv.2) fields
  | JNull | JBool _ | JNum _ | JStr _ => true
  end.
End Json.

(** ** The pydantic models, lines 9 to 23 *)

Record GroundTruth := {
  tables_from_schema_linking : list string;
  golden_sql : string
}.

Record Interaction := {
  interaction_id : string;
  speaker : string;
  utterance : string;
  intention : string;
  ground_truths : GroundTruth
}.

Record Experiment := {
  experiment_id : string;
  total_expected_interactions : Z;
  interactions : list Interaction
}.

(** [dialogue.model_dump()] *)
Definition dump_ground_truth (g : GroundTruth) : json :=
  JObj [("tables_from_schema_linking", JArr (JStr <$> tables_from_schema_linking g));
        ("golden_sql", JStr (golden_sql g))].

Definition dump_interaction (it : Interaction) : json :=
  JObj [("interaction_id", JStr (interaction_id it));
        ("speaker", JStr (speaker it));
        ("utterance", JStr (utterance it));
        ("intention", JStr (intention it));
        ("ground_truths", dump_ground_truth (ground_truths it))].

Definition model_dump (e : Experiment) : json :=
  JObj [("experiment_id", JStr (experiment_id e));
        ("total_expected_interactions", JNum (total_expected_interactions e));
        ("interactions", JArr (dump_interaction <$> interactions e))].

(** ** The world: file system and trace *)

(** What reading an existing path gives: [open] fails (a directory, no
    permission), [json.load] raises [JSONDecodeError], or a document. *)
Inductive node :=
  | Unreadable
  | Garbage
  | Doc (v : json).

(** [nodes] holds the paths for which [os.path.exists] is true.  [sealed]
    holds the paths at which the environment makes a write fail: [open(path,
    'w')] refuses (missing parent directory, no permission, a directory), or
    the device gives out while [json.dump] writes.  [torn] tells the two
    apart: at a sealed path in [torn] the failure comes after [open] has
    truncated the file, at any other sealed path before anything changed. *)
Record filesystem := {
  nodes : gmap string node;
  sealed : gset string;
  torn : gset string
}.

(** Console lines, one constructor per [print] of the source. *)
Inductive line :=
  | LGenerating (number total : nat)
  | LUsingCheckpoint (number : nat) (file : string)
  | LGenerated (d : Experiment)
  | LRetrying (number attempt : nat)
  | LText (msg : string)
  | LSaving (d : json)
  | LAdded (file : string)
  | LSaveError (e : exn).

(** Observable events; a call to an outside party is recorded with the
    answer it got ([None] from the database means no exception). *)
Inductive event :=
  | Print (l : line)
  | Invoke (prompt : string) (answer : outcome Experiment)
  | DbConnect (user password host port service : json) (answer : option string)
  | DbCursor (answer : option string)
  | DbExecute (sql : string) (answer : option string)
  | DbCloseCursor (answer : option string)
  | DbCloseConnection (answer : option string).

Record World := {
  fs : filesystem;
  trace : list event
}.

Definition M (A : Type) : Type := World → outcome A * World.

Definition ret {A} (a : A) : M A := λ w, (Ret a, w).
Definition raise {A} (e : exn) : M A := λ w, (Raise e, w).
Definition bind {A B} (m : M A) (k : A → M B) : M B :=
  λ w, match m w with
       | (Ret a, w') => k a w'
       | (Raise e, w') => (Raise e, w')
       end.
Definition lift {A} (o : outcome A) : M A := λ w, (o, w).

(** [try: body  except <caught>: handler] *)
Definition try_except {A} (body : M A) (caught : exn → bool)
    (handler : exn → M A) : M A :=
  λ w, match body w with
       | (Raise e, w') => if caught e then handler e w' else (Raise e, w')
       | r => r
       end.

Declare Scope py_scope.
Delimit Scope py_scope with py.
Notation "'do' x <- m 'in' k" := (bind m (λ x, k))
  (at level 10, x name, m at level 100, k at level 200,
   format "'[v' 'do'  x  <-  m  'in' '/' k ']'") : py_scope.
Notation "'do' ' p <- m 'in' k" := (bind m (λ x, match x with p => k end))
  (at level 10, p pattern, m at level 100, k at level 200,
   format "'[v' 'do'  ' p  <-  m  'in' '/' k ']'") : py_scope.
Notation "'run' m 'in' k" := (bind m (λ _, k))
  (at level 10, m at level 100, k at level 200,
   format "'[v' 'run'  m  'in' '/' k ']'") : py_scope.
Local Open Scope py_scope.

Definition emit (ev : event) : M unit :=
  λ w, (Ret tt, {| fs := fs w; trace := trace w ++ [ev] |}).

Definition print (l : line) : M unit := emit (Print l).

(** The prompts sent to the model, the statements sent to the database. *)
Definition invocations (tr : list event) : list string :=
  omap (λ ev, match ev with Invoke p _ => Some p | _ => None end) tr.

Definition statements (tr : list event) : list (string * option string) :=
  omap (λ ev, match ev with DbExecute q a => Some (q, a) | _ => None end) tr.

Definition skips (tr : list event) : list nat :=
  omap (λ ev, match ev with
              | Print (LUsingCheckpoint n _) => Some n
              | _ => None
              end) tr.

(** The numbers on the lines that open a turn of the loop, line 104. *)
Definition announced (tr : list event) : list nat :=
  omap (λ ev, match ev with
              | Print (LGenerating n _) => Some n
              | _ => None
              end) tr.

(** ** File access *)

(** [os.path.exists(path)] *)
Definition path_exists (path : string) (f : filesystem) : bool :=
  match nodes f !! path with Some _ => true | None => false end.

(** [with open(path, 'r') as f: json.load(f)] *)
Definition load_json (path : string) (f : filesystem) : outcome json :=
  match nodes f !! path with
  | None => Raise FileNotFoundError
  | Some Unreadable => Raise OSError
  | Some Garbage => Raise JSONDecodeError
  | Some (Doc v) => Ret v
  end.

Definition ask {A} (answer : list event → A) : M A :=
  λ w, (Ret (answer (trace w)), w).

Definition read_fs : M filesystem := λ w, (Ret (fs w), w).

(** The file system with [n] at [path]. *)
Definition with_node (path : string) (n : node) (f : filesystem) : filesystem :=
  {| nodes := <[path := n]> (nodes f); sealed := sealed f; torn := torn f |}.

Definition put_node (path : string) (n : node) : M unit :=
  λ w, (Ret tt, {| fs := with_node path n (fs w); trace := trace w |}).

(** [open(path, 'w')], line 267: refused, or the file is there and empty,
    which [json.load] does not parse. *)
Definition open_for_writing (path : string) : M unit :=
  do f <- read_fs in
  if decide (path ∈ sealed f ∧ path ∉ torn f) then raise OSError
  else put_node path Garbage.

(** [with open(path, 'w') as f: json.dump(v, f, ...)], lines 267 and 268.
    The file is truncated first; when [json.dump] then raises, because the
    device gives out or a string cannot be encoded, what is left is the
    beginning of a document, which does not parse either. *)
Definition dump_json (path : string) (v : json) : M unit :=
  run open_for_writing path in
  do f <- read_fs in
  if decide (path ∈ sealed f) then raise OSError
  else if Json.encodable v then put_node path (Doc v)
  else raise UnicodeEncodeError.

(** ** Checkpoint store, lines 198 to 272 *)

(** The [for experiment in existing_data["dataset"]] loop, lines 221 to 225. *)
Fixpoint scan_dataset (experiment_id : string) (dataset : list json)
  : outcome bool :=
  match dataset with
  | [] => Ret false
  | experiment :: rest =>
      match Json.get_equals "experiment_id" experiment_id experiment with
      | Ret true => Ret true
      | Ret false => scan_dataset experiment_id rest
      | Raise e => Raise e
      end
  end.

Definition dialogue_exists_in_dataset (experiment_id output_file : string)
  : M bool :=
  try_except
    (do f <- read_fs in
     if negb (path_exists output_file f) then ret false
     else
       do existing_data <- lift (load_json output_file f) in
       do has_key <- lift (Json.contains "dataset" existing_data) in
       if negb has_key then ret false
       else
         do dataset <- lift (Json.subscript "dataset" existing_data) in
         do experiments <- lift (Json.iterate dataset) in
         lift (scan_dataset experiment_id experiments))
    is_decode_or_missing
    (λ _, ret false).

Definition empty_document : json := JObj [("dataset", JArr [])].

(** [existing_data["dataset"].append(dialogue_dict)], line 264. *)
Definition append_to_dataset (existing_data dialogue_dict : json)
  : outcome json :=
  match Json.subscript "dataset" existing_data with
  | Raise e => Raise e
  | Ret (JArr items) =>
      match existing_data with
      | JObj fields =>
          Ret (JObj (Dict.set "dataset" (JArr (items ++ [dialogue_dict])) fields))
      | _ => Raise TypeError
      end
  | Ret _ => Raise AttributeError
  end.

Definition save_dialogue_to_file (dialogue : Experiment) (output_file : string)
  : M unit :=
  try_except
    (let dialogue_dict := model_dump dialogue in
     run print (LSaving dialogue_dict) in
     do f <- read_fs in
     do existing_data <-
       (if path_exists output_file f then
          try_except
            (do existing_data <- lift (load_json output_file f) in
             do has_key <- lift (Json.contains "dataset" existing_data) in
             if negb has_key then ret empty_document else ret existing_data)
            is_json_decode_error
            (λ _, ret empty_document)
        else ret empty_document) in
     do updated <- lift (append_to_dataset existing_data dialogue_dict) in
     run dump_json output_file updated in
     print (LAdded output_file))
    (λ _, true)
    (λ e, print (LSaveError e)).

(** ** The outside parties *)

(** The database behind [oracledb]: each call answers [None] or raises, the
    answer being [str(e)].  [connect] receives the user, the password and
    the three settings the source joins into the dsn
    [f"{db_host}:{db_port}/{service_name}"]; [execute] stands for
    [cursor.execute(sql)] followed by [cursor.fetchall()]. *)
Record Database := {
  connect : list event → json → json → json → json → json → option string;
  cursor : list event → option string;
  execute : list event → string → option string;
  close_cursor : list event → option string;
  close_connection : list event → option string
}.

(** Library functions taken as given: [json.dumps(_, indent=2,
    ensure_ascii=False)] on JSON data, where it returns a string, and
    [str.format] with keyword arguments. *)
Record Library := {
  json_dumps : json → string;
  str_format : string → list (string * string) → outcome string
}.

(** ** Prompt builder inputs *)

Record Combination := {
  combination_str : string;
  tables : list string
}.

(** An example value either exposes [isoformat] (then [text] is its [str])
    or is plain JSON data.  The lookup is taken to hold nothing else: a
    value such as a [Decimal], [bytes] or a [timedelta], on which
    [json.dumps] raises [TypeError] at line 83, is outside this type. *)
Inductive item :=
  | Dated (text : string)
  | Plain (v : json).

(** A column's examples: a list of values or one value. *)
Inductive column :=
  | Many (values : list item)
  | One (value : item).

(** What [table_column_values_hashmap.get(table, "...")] returns: the
    table's dict, or the default, which is a [str]. *)
Inductive examples_or_default :=
  | Examples (columns : list (string * column))
  | Default (text : string).

Record DialogueGenerator := {
  join_combination_data : list Combination;
  table_ddls_hashmap : gmap string string;
  table_column_values_hashmap : gmap string (list (string * column));
  output_file : string;
  dialogue_generator : list event → string → outcome Experiment;
  dialogue_generation_prompt : string;
  database_connection : string
}.

Section Generator.
Variable db : Database.
Variable py : Library.
Variable self : DialogueGenerator.

(** ** Prompt builder, lines 44 to 95 *)

(** [str(item) if hasattr(item, 'isoformat') else item] *)
Definition process_item (it : item) : json :=
  match it with
  | Dated text => JStr text
  | Plain v => v
  end.

(** Lines 78 to 81. *)
Definition process_column (value : column) : json :=
  match value with
  | Many values => JArr (process_item <$> values)
  | One v => process_item v
  end.

(** [column_values_examples.items()]: a [str] has no such method. *)
Definition items_of (x : examples_or_default)
  : outcome (list (string * column)) :=
  match x with
  | Examples columns => Ret columns
  | Default _ => Raise AttributeError
  end.

(** The [for table in tables_involved] loop, lines 71 to 85. *)
Fixpoint tables_context_loop (tables_involved : list string)
    (tables_context : string) : outcome string :=
  match tables_involved with
  | [] => Ret tables_context
  | table :: rest =>
      let ddl_text :=
        default "DDL not found" (table_ddls_hashmap self !! table) in
      let column_values_examples :=
        match table_column_values_hashmap self !! table with
        | Some columns => Examples columns
        | None => Default "Column values examples not found"
        end in
      match items_of column_values_examples with
      | Raise e => Raise e
      | Ret columns =>
          let processed_examples :=
            (λ kv : string * column, (kv.1, process_column kv.2)) <$> columns in
          let examples_str := json_dumps py (JObj processed_examples) in
          tables_context_loop rest
            (tables_context +:+ "Table: " +:+ table +:+ PyStr.nl
               +:+ "DDL:" +:+ PyStr.nl +:+ ddl_text +:+ PyStr.nl
               +:+ "Column values examples:" +:+ PyStr.nl
               +:+ examples_str +:+ PyStr.nl)
      end
  end.

Definition create_prompt_from_join_combination_data (i : nat)
    (join_combination_data : Combination) : outcome string :=
  let experiment_id := pretty (i + 1) in
  let join_str := combination_str join_combination_data in
  let tables_involved := tables join_combination_data in
  let joins_len := length (remove_dups tables_involved) in
  match tables_context_loop tables_involved "" with
  | Raise e => Raise e
  | Ret tables_context =>
      str_format py (dialogue_generation_prompt self)
        [("experiment_id", experiment_id);
         ("join_str", join_str);
         ("joins_len", pretty joins_len);
         ("tables_context", tables_context);
         ("tables_involved", String.concat ", " tables_involved)]
  end.

(** ** Generator call, lines 97 and 98 *)

Definition generate_dialogue (prompt : string) : M Experiment :=
  do answer <- ask (λ tr, dialogue_generator self tr prompt) in
  run emit (Invoke prompt answer) in
  lift answer.

(** ** Validator, lines 131 to 196 *)

(** Line 177. *)
Definition error_line (it : Interaction) (cause : string) : string :=
  "Interaction " +:+ interaction_id it +:+ ", SQL: '"
    +:+ prepare_sql (golden_sql (ground_truths it))
    +:+ "' - Error: " +:+ cause.

Definition feedback_preamble : string :=
  PyStr.nl +:+ PyStr.nl +:+ "# Feedback: " +:+ PyStr.nl
    +:+ "The groundtruths SQLs that you generated gave me the following errors, try again but attention to the errors:"
    +:+ PyStr.nl.

Definition feedback_trailer : string :=
  PyStr.nl
    +:+ "Do it again fixing it please and you can maintain the same structure of everything except wrong SQLs.".

(** Lines 187 to 189. *)
Definition feedback_of (sql_errors : list string) : string :=
  feedback_preamble +:+ String.concat PyStr.nl sql_errors +:+ feedback_trailer.

(** The [for interaction in dialogue.interactions] loop, lines 167 to
    179; the inner [try] has one raising call, the database's. *)
Fixpoint check_interactions (todo : list Interaction)
    (sql_errors : list string) : M (list string) :=
  match todo with
  | [] => ret sql_errors
  | interaction :: rest =>
      let sql := prepare_sql (golden_sql (ground_truths interaction)) in
      do answer <- ask (λ tr, execute db tr sql) in
      run emit (DbExecute sql answer) in
      match answer with
      | None => check_interactions rest sql_errors
      | Some cause =>
          let error_msg := error_line interaction cause in
          run print (LText error_msg) in
          check_interactions rest (sql_errors ++ [error_msg])
      end
  end.

(** The outer [except Exception as e], lines 193 to 196. *)
Definition connection_error (cause : string) : M (bool * string) :=
  let error_msg := "Error connecting to the database: " +:+ cause in
  run print (LText error_msg) in
  ret (false, error_msg).

(** One database call inside the outer [try]: go on, or to the handler. *)
Definition guarded (answer : list event → option string)
    (record : option string → event) (next : M (bool * string))
  : M (bool * string) :=
  do a <- ask answer in
  run emit (record a) in
  match a with
  | None => next
  | Some cause => connection_error cause
  end.

(** Lines 144 to 151, before the [try]. *)
Definition load_settings : M (json * json * json * json * json) :=
  do f <- read_fs in
  do db_config <- lift (load_json (database_connection self) f) in
  do db_host <- lift (Json.subscript "DB_HOST" db_config) in
  do db_port <- lift (Json.subscript "DB_PORT" db_config) in
  do db_user <- lift (Json.subscript "DB_USER_NAME" db_config) in
  do db_pass <- lift (Json.subscript "DB_PASS" db_config) in
  do service_name <- lift (Json.subscript "SERVICE_NAME" db_config) in
  ret (db_host, db_port, db_user, db_pass, service_name).

Definition check_dialogue_sintax (dialogue : Experiment) : M (bool * string) :=
  do '(db_host, db_port, db_user, db_pass, service_name) <- load_settings in
  guarded (λ tr, connect db tr db_user db_pass db_host db_port service_name)
          (DbConnect db_user db_pass db_host db_port service_name)
    (guarded (cursor db) DbCursor
       (do sql_errors <- check_interactions (interactions dialogue) [] in
        guarded (close_cursor db) DbCloseCursor
          (guarded (close_connection db) DbCloseConnection
             (match sql_errors with
              | [] => ret (true, "")
              | _ => ret (false, feedback_of sql_errors)
              end)))).

(** ** Generator loop, lines 100 to 129 *)

(** The [while not is_valid and retries < 3] loop, lines 118 to 123;
    [budget] is [3 - retries]. *)
Fixpoint retry_loop (number : nat) (prompt : string) (budget : nat)
    (dialogue : Experiment) (is_valid : bool) (feedback : string)
  : M (Experiment * bool) :=
  if is_valid then ret (dialogue, is_valid)
  else
    match budget with
    | O => ret (dialogue, is_valid)
    | S budget' =>
        run print (LRetrying number (3 - budget + 1)) in
        do dialogue' <- generate_dialogue (prompt +:+ feedback) in
        do '(is_valid', feedback') <- check_dialogue_sintax dialogue' in
        retry_loop number prompt budget' dialogue' is_valid' feedback'
    end.

(** Lines 110 to 123: the last candidate and the last verdict. *)
Definition candidate (i : nat) (combination : Combination)
  : M (Experiment * bool) :=
  do prompt <- lift (create_prompt_from_join_combination_data i combination) in
  do dialogue <- generate_dialogue prompt in
  run print (LGenerated dialogue) in
  do '(is_valid, feedback) <- check_dialogue_sintax dialogue in
  retry_loop (i + 1) prompt 3 dialogue is_valid feedback.

(** One turn of the [for] loop; [None] is the [continue] of line 108. *)
Definition loop_body (i : nat) (combination : Combination)
  : M (option Experiment) :=
  run print (LGenerating (i + 1) (length (join_combination_data self))) in
  do found <- dialogue_exists_in_dataset (pretty (i + 1)) (output_file self) in
  if found then
    run print (LUsingCheckpoint (i + 1) (output_file self)) in
    ret None
  else
    do '(dialogue, is_valid) <- candidate i combination in
    run (if is_valid
         then save_dialogue_to_file dialogue (output_file self)
         else ret tt) in
    ret (Some dialogue).

(** [for i, join_combination_data in enumerate(...)], from index [i];
    the loop variable is named [combination] here. *)
Fixpoint for_loop (i : nat) (todo : list Combination)
    (dialogues : list Experiment) : M (list Experiment) :=
  match todo with
  | [] => ret dialogues
  | combination :: rest =>
      do made <- loop_body i combination in
      for_loop (S i) rest
        (match made with
         | Some dialogue => dialogues ++ [dialogue]
         | None => dialogues
         end)
  end.

Definition create_dialogue_dataset : M (list Experiment) :=
  for_loop 0 (join_combination_data self) [].

End Generator.

(** * Vocabulary of the properties *)

(** [bounded n m]: the computation [m] leaves the file system alone, prints
    no checkpoint-skip line and no line that opens a turn, and asks the
    model at most [n] times. *)
Definition bounded {A} (n : nat) (m : M A) : Prop :=
  ∀ w, fs (m w).2 = fs w
       ∧ ∃ evs, trace (m w).2 = trace w ++ evs
                ∧ skips evs = []
                ∧ announced evs = []
                ∧ length (invocations evs) ≤ n.

(** A JSON object, which is what [model_dump] writes for an experiment. *)
Definition is_object (v : json) : bool :=
  match v with JObj _ => true | _ => false end.

(** [x] is an object whose [experiment_id] field is the string [id]. *)
Definition has_id (id : string) (x : json) : bool :=
  match x with
  | JObj fields =>
      match Dict.get "experiment_id" fields with
      | Some v => Json.is_str id v
      | None => false
      end
  | _ => false
  end.

(** The [dataset] list of the document stored at [path], when the file
    parses to an object that has one. *)
Definition dataset_of (path : string) (f : filesystem) : option (list json) :=
  match nodes f !! path with
  | Some (Doc (JObj fields)) =>
      match Dict.get "dataset" fields with
      | Some (JArr items) => Some items
      | _ => None
      end
  | _ => None
  end.

(** The checkpoint at [path] holds an experiment with this id. *)
Definition checkpointed (id path : string) (f : filesystem) : bool :=
  match dataset_of path f with
  | Some items => existsb (has_id id) items
  | None => false
  end.

(** How many experiments of the checkpoint at [path] share this id. *)
Definition count_id (id path : string) (f : filesystem) : nat :=
  match dataset_of path f with
  | Some items => length (List.filter (has_id id) items)
  | None => 0
  end.


(** A path in the state section 3 of the specification expects of a
    checkpoint: no file yet, a file that is not JSON, a document without the
    [dataset] key, or an object whose [dataset] is a list of objects. *)
Definition regular (path : string) (f : filesystem) : bool :=
  match nodes f !! path with
  | None | Some Garbage => true
  | Some Unreadable => false
  | Some (Doc v) =>
      match Json.contains "dataset" v with
      | Ret false => true
      | Ret true =>
          match v with
          | JObj fields =>
              match Dict.get "dataset" fields with
              | Some (JArr items) => forallb is_object items
              | _ => false
              end
          | _ => false
          end
      | Raise _ => false
      end
  end.

(** [existing_data] as lines 246 to 261 leave it. *)
Definition current_document (path : string) (f : filesystem) : outcome json :=
  match nodes f !! path with
  | None | Some Garbage => Ret empty_document
  | Some Unreadable => Raise OSError
  | Some (Doc v) =>
      match Json.contains "dataset" v with
      | Ret true => Ret v
      | Ret false => Ret empty_document
      | Raise e => Raise e
      end
  end.

(** The document line 268 is about to write, or the exception on the way. *)
Definition next_document (e : Experiment) (path : string) (f : filesystem)
  : outcome json :=
  match current_document path f with
  | Ret existing_data => append_to_dataset existing_data (model_dump e)
  | Raise ex => Raise ex
  end.

(** The world with further events on its trace. *)
Definition log (w : World) (evs : list event) : World :=
  {| fs := fs w; trace := trace w ++ evs |}.

(** What a write of [doc] at [path] leaves there and prints: the document
    and the success line; nothing new and the error when [open] is refused;
    a truncated file and the error when the device gives out or [doc] cannot
    be encoded. *)
Definition write_result (path : string) (doc : json) (f : filesystem)
  : option node * line :=
  if decide (path ∈ sealed f) then
    (if decide (path ∈ torn f) then Some Garbage else None, LSaveError OSError)
  else if Json.encodable doc then (Some (Doc doc), LAdded path)
  else (Some Garbage, LSaveError UnicodeEncodeError).

(** The world [save_dialogue_to_file] leaves behind. *)
Definition saved_world (e : Experiment) (path : string) (w : World) : World :=
  match next_document e path (fs w) with
  | Ret doc =>
      {| fs := match (write_result path doc (fs w)).1 with
               | Some n => with_node path n (fs w)
               | None => fs w
               end;
         trace := trace w ++ [Print (LSaving (model_dump e));
                              Print (write_result path doc (fs w)).2] |}
  | Raise ex =>
      log w [Print (LSaving (model_dump e)); Print (LSaveError ex)]
  end.



(** ** Sample inputs, from the example scenarios of section 8 *)

Definition sample_interaction (id sql : string) : Interaction :=
  {| interaction_id := id; speaker := "User";
     utterance := "Which countries are there?";
     intention := "List the countries";
     ground_truths := {| tables_from_schema_linking := ["country"];
                         golden_sql := sql |} |}.

Definition sample_experiment (id : string) : Experiment :=
  {| experiment_id := id; total_expected_interactions := 1;
     interactions := [sample_interaction "1" "SELECT name FROM country;"] |}.

Definition sample_settings : json :=
  JObj [("DB_HOST", JStr "localhost"); ("DB_PORT", JNum 1521);
        ("DB_USER_NAME", JStr "mondial"); ("DB_PASS", JStr "secret");
        ("SERVICE_NAME", JStr "XEPDB1")].

Definition country_city : Combination :=
  {| combination_str := "country JOIN city ON country.code = city.country";
     tables := ["country"; "city"] |}.

(** A file system with the connection settings and nothing else. *)
Definition fresh_fs : filesystem :=
  {| nodes := {[ "mondial/mondial_db_connection.json" := Doc sample_settings ]};
     sealed := ∅; torn := ∅ |}.


Definition world_of (f : filesystem) : World := {| fs := f; trace := [] |}.

(** ** Validator vocabulary *)

(** The statement the validator sends for an interaction. *)
Definition statement_of (it : Interaction) : string :=
  prepare_sql (golden_sql (ground_truths it)).

(** The error lines of the interactions whose statement raised, in order. *)
Definition failures (answered : list (Interaction * option string))
  : list string :=
  omap (λ p, error_line p.1 <$> p.2) answered.

(** The connection settings stored at [path]. *)
Definition settings_in (path : string) (f : filesystem)
    (host port user pass service : json) : Prop :=
  ∃ fields,
    nodes f !! path = Some (Doc (JObj fields))
    ∧ Dict.get "DB_HOST" fields = Some host
    ∧ Dict.get "DB_PORT" fields = Some port
    ∧ Dict.get "DB_USER_NAME" fields = Some user
    ∧ Dict.get "DB_PASS" fields = Some pass
    ∧ Dict.get "SERVICE_NAME" fields = Some service.

Definition settings_keys : list string :=
  ["DB_HOST"; "DB_PORT"; "DB_USER_NAME"; "DB_PASS"; "SERVICE_NAME"].

(** A database whose connection and cursor always open and close. *)
Definition reliable (db : Database) : Prop :=
  ∀ tr,
    (∀ user pass host port service,
       connect db tr user pass host port service = None)
    ∧ cursor db tr = None
    ∧ close_cursor db tr = None
    ∧ close_connection db tr = None.

(** [s] occurs inside [t]. *)
Definition occurs_in (s t : string) : Prop :=
  ∃ before after, t = before +:+ s +:+ after.

(** A database that accepts every statement. *)
Definition steady_db : Database :=
  {| connect := λ _ _ _ _ _ _, None;
     cursor := λ _, None;
     execute := λ _ _, None;
     close_cursor := λ _, None;
     close_connection := λ _, None |}.

(** A database that knows one table, [country]. *)
Definition strict_db : Database :=
  {| connect := λ _ _ _ _ _ _, None;
     cursor := λ _, None;
     execute := λ _ sql,
       if PyStr.contains "country" sql then None
       else Some "ORA-00942: table or view does not exist";
     close_cursor := λ _, None;
     close_connection := λ _, None |}.

(** A database nobody listens for. *)
Definition refusing_db : Database :=
  {| connect := λ _ _ _ _ _ _, Some "ORA-12541: TNS:no listener";
     cursor := λ _, None;
     execute := λ _ _, None;
     close_cursor := λ _, None;
     close_connection := λ _, None |}.

(** Stand-ins for [json.dumps] and [str.format], enough to run examples. *)
Definition plain_library : Library :=
  {| json_dumps := λ _, "{}";
     str_format := λ template kwargs,
       Ret (template +:+ String.concat "|" (kwargs.*2)) |}.

(** A generator object around a model that always returns [answer]. *)
Definition constant_generator (combinations : list Combination)
    (output : string) (answer : Experiment) : DialogueGenerator :=
  {| join_combination_data := combinations;
     table_ddls_hashmap := {[ "country" := "CREATE TABLE country (name VARCHAR2(50))" ]};
     table_column_values_hashmap :=
       {[ "country" := [("name", Many [Plain (JStr "Brazil")])];
          "city" := [("founded", One (Dated "1565-03-01"))] ]};
     output_file := output;
     dialogue_generator := λ _ _, Ret answer;
     dialogue_generation_prompt := "Experiment {experiment_id}";
     database_connection := "mondial/mondial_db_connection.json" |}.

(** A dialogue of two turns; the first statement misspells the table. *)
Definition mixed_experiment : Experiment :=
  {| experiment_id := "1"; total_expected_interactions := 2;
     interactions := [sample_interaction "1" "SELECT name FROM contry;";
                      sample_interaction "2" "SELECT name FROM country"] |}.

(** The generator object of the example scenarios. *)
Definition sample_generator : DialogueGenerator :=
  constant_generator [country_city] "dialogue_dataset.json"
    (sample_experiment "1").

(** The three ways the connection settings can be unusable that line 144 to
    151 meet: no file, not JSON, an object without one of the keys. *)
Definition settings_broken (path : string) (f : filesystem) : Prop :=
  nodes f !! path = None
  ∨ nodes f !! path = Some Garbage
  ∨ ∃ fields key,
      nodes f !! path = Some (Doc (JObj fields))
      ∧ key ∈ settings_keys
      ∧ Dict.get key fields = None.

(** A file system whose settings file lacks the password. *)
Definition no_password_fs : filesystem :=
  {| nodes := {[ "mondial/mondial_db_connection.json" :=
                   Doc (JObj [("DB_HOST", JStr "localhost");
                              ("DB_PORT", JNum 1521);
                              ("DB_USER_NAME", JStr "mondial");
                              ("SERVICE_NAME", JStr "XEPDB1")]) ]};
     sealed := ∅; torn := ∅ |}.

(** A generator object that has no example values for [city]. *)
Definition no_city_examples : DialogueGenerator :=
  {| join_combination_data := [country_city];
     table_ddls_hashmap := ∅;
     table_column_values_hashmap :=
       {[ "country" := [("name", Many [Plain (JStr "Brazil")])] ]};
     output_file := "dialogue_dataset.json";
     dialogue_generator := λ _ _, Ret (sample_experiment "1");
     dialogue_generation_prompt := "Experiment {experiment_id}";
     database_connection := "mondial/mondial_db_connection.json" |}.

(** ** Generator loop vocabulary *)

(** The model has returned [d] for [prompt], possibly with feedback
    appended, at some point of some history. *)
Definition answered (self : DialogueGenerator) (prompt : string)
    (d : Experiment) : Prop :=
  ∃ tr feedback, dialogue_generator self tr (prompt +:+ feedback) = Ret d.

(** Every experiment the model returned during the events [evs] carries
    the number of the turn it was returned in as its id; [number] is the
    turn under way when [evs] begin. *)
Fixpoint labelled (number : nat) (evs : list event) : Prop :=
  match evs with
  | [] => True
  | Print (LGenerating n _) :: rest => labelled n rest
  | Invoke _ (Ret d) :: rest =>
      experiment_id d = pretty number ∧ labelled number rest
  | _ :: rest => labelled number rest
  end.

(** The retry loop as lines 116 to 123 word it, from [retries = n] with
    candidate [d], verdict [v] and feedback [feedback] in world [w] to its
    exit with [retries = m]: it stops on a valid verdict, it stops after
    three retries, and otherwise, from an invalid verdict with fewer than
    three retries made, it prints the retry line, sends the prompt followed
    by the feedback, validates the answer and counts one retry more. *)
Inductive retries (db : Database) (self : DialogueGenerator)
    (number : nat) (prompt : string)
  : nat → Experiment → bool → string → World
    → nat → Experiment → bool → World → Prop :=
  | retries_valid n d feedback w :
      retries db self number prompt n d true feedback w n d true w
  | retries_spent d feedback w :
      retries db self number prompt 3 d false feedback w 3 d false w
  | retries_again n d feedback w d1 w1 v1 feedback1 w2 m d' v' w' :
      n < 3 →
      generate_dialogue self (prompt +:+ feedback)
        (log w [Print (LRetrying number (n + 1))]) = (Ret d1, w1) →
      check_dialogue_sintax db self d1 w1 = (Ret (v1, feedback1), w2) →
      retries db self number prompt (S n) d1 v1 feedback1 w2 m d' v' w' →
      retries db self number prompt n d false feedback w m d' v' w'.

(** [d] is an answer of the model, [v] is the verdict the validator gave
    on it, and [w'] is the world as that validation left it: nothing
    happened since. *)
Definition validated (db : Database) (self : DialogueGenerator)
    (d : Experiment) (v : bool) (w' : World) : Prop :=
  ∃ text w0 w1 w2 feedback,
    generate_dialogue self text w0 = (Ret d, w1)
    ∧ (w2 = w1 ∨ w2 = log w1 [Print (LGenerated d)])
    ∧ check_dialogue_sintax db self d w2 = (Ret (v, feedback), w').

(** A completed generation for combination [i], lines 110 to 123: the
    prompt is built and sent, the answer [d0] is printed and validated, and
    the retry loop runs from zero retries to [m], ending with candidate [d]
    and verdict [v]. *)
Definition generation (db : Database) (py : Library) (self : DialogueGenerator)
    (i : nat) (combination : Combination) (w : World)
    (m : nat) (d : Experiment) (v : bool) (w' : World) : Prop :=
  ∃ prompt d0 w1 v0 feedback0 w2,
    create_prompt_from_join_combination_data py self i combination = Ret prompt
    ∧ generate_dialogue self prompt w = (Ret d0, w1)
    ∧ check_dialogue_sintax db self d0 (log w1 [Print (LGenerated d0)])
      = (Ret (v0, feedback0), w2)
    ∧ retries db self (i + 1) prompt 0 d0 v0 feedback0 w2 m d v w'.

(** The numbers printed on the skip lines of a run from index [i], given
    what each turn made. *)
Fixpoint skipped_numbers (i : nat) (made : list (option Experiment))
  : list nat :=
  match made with
  | [] => []
  | None :: rest => (i + 1) :: skipped_numbers (S i) rest
  | Some _ :: rest => skipped_numbers (S i) rest
  end.

(** A completed run of the loop from index [i], turn by turn: each
    combination was either found in the checkpoint when its turn came, and
    made nothing, or was not found, and made an experiment. *)
Inductive turns (db : Database) (py : Library) (self : DialogueGenerator)
  : nat → list Combination → World → list (option Experiment) → World → Prop :=
  | turns_done i w :
      turns db py self i [] w [] w
  | turns_skipped i combination rest w w1 made w' :
      (dialogue_exists_in_dataset (pretty (i + 1)) (output_file self) w).1
      = Ret true →
      loop_body db py self i combination w = (Ret None, w1) →
      turns db py self (S i) rest w1 made w' →
      turns db py self i (combination :: rest) w (None :: made) w'
  | turns_generated i combination rest w w1 d made w' :
      (dialogue_exists_in_dataset (pretty (i + 1)) (output_file self) w).1
      = Ret false →
      loop_body db py self i combination w = (Ret (Some d), w1) →
      turns db py self (S i) rest w1 made w' →
      turns db py self i (combination :: rest) w (Some d :: made) w'.

(** A file system whose checkpoint already holds experiment 1. *)
Definition resumed_fs : filesystem :=
  {| nodes := {[ "mondial/mondial_db_connection.json" := Doc sample_settings;
                 "dialogue_dataset.json" :=
                   Doc (JObj [("dataset",
                               JArr [model_dump (sample_experiment "1")])]) ]};
     sealed := ∅; torn := ∅ |}.

(** Two combinations, and a model that answers experiment 2 to anything. *)
Definition resuming_generator : DialogueGenerator :=
  constant_generator [country_city; country_city] "dialogue_dataset.json"
    (sample_experiment "2").

(** Two combinations, and a model that labels every answer experiment 1. *)
Definition mislabelling_generator : DialogueGenerator :=
  constant_generator [country_city; country_city] "dialogue_dataset.json"
    (sample_experiment "1").

(** A model that answers [mixed_experiment] first and a corrected dialogue
    once the prompt carries feedback. *)
Definition correcting_generator : DialogueGenerator :=
  {| join_combination_data := [country_city];
     table_ddls_hashmap := ∅;
     table_column_values_hashmap := {[ "country" := []; "city" := [] ]};
     output_file := "dialogue_dataset.json";
     dialogue_generator := λ _ prompt,
       if PyStr.contains "# Feedback" prompt
       then Ret (sample_experiment "1")
       else Ret mixed_experiment;
     dialogue_generation_prompt := "Experiment {experiment_id}";
     database_connection := "mondial/mondial_db_connection.json" |}.

(** Two combinations, and a model that labels its answer with the number
    the prompt asks for. *)
Definition echoing_generator : DialogueGenerator :=
  {| join_combination_data := [country_city; country_city];
     table_ddls_hashmap := ∅;
     table_column_values_hashmap := {[ "country" := []; "city" := [] ]};
     output_file := "dialogue_dataset.json";
     dialogue_generator := λ _ prompt,
       if String.prefix "Experiment {experiment_id}1|" prompt
       then Ret (sample_experiment "1")
       else Ret (sample_experiment "2");
     dialogue_generation_prompt := "Experiment {experiment_id}";
     database_connection := "mondial/mondial_db_connection.json" |}.

(** A model that answers [mixed_experiment] whatever it is told. *)
Definition hopeless_generator : DialogueGenerator :=
  constant_generator [country_city] "dialogue_dataset.json" mixed_experiment.

(** ** Further sample inputs *)

Definition with_checkpoint (n : node) : filesystem :=
  {| nodes := {[ "mondial/mondial_db_connection.json" := Doc sample_settings;
                 "dialogue_dataset.json" := n ]};
     sealed := ∅; torn := ∅ |}.

(** A checkpoint that holds experiment 7 and, under another key, a string
    with a lone surrogate in it. *)
Definition lone_fs : filesystem :=
  with_checkpoint
    (Doc (JObj [("dataset", JArr [model_dump (sample_experiment "7")]);
                ("note", JLone "caf" "" [])])).

(** The checkpoint of [resumed_fs] on a device that gives out during the
    write. *)
Definition full_fs : filesystem :=
  {| nodes := nodes resumed_fs;
     sealed := {[ "dialogue_dataset.json" ]};
     torn := {[ "dialogue_dataset.json" ]} |}.

(** Checkpoints that are not JSON, hold a number, or hold a stray string in
    front of experiment 1. *)
Definition garbage_fs : filesystem := with_checkpoint Garbage.

Definition number_fs : filesystem := with_checkpoint (Doc (JNum 7)).

Definition stray_fs : filesystem :=
  with_checkpoint
    (Doc (JObj [("dataset",
                 JArr [JStr "stray"; model_dump (sample_experiment "1")])])).


(** ** Vocabulary of the further properties *)

(** The two texts the validator returns with an invalid verdict: the
    statement feedback of lines 187 to 189 for at least one error line, or
    the connection message of line 194. *)
Definition validator_feedback (feedback : string) : Prop :=
  (∃ sql_errors, sql_errors ≠ [] ∧ feedback = feedback_of sql_errors)
  ∨ (∃ cause, feedback = "Error connecting to the database: " +:+ cause).

(** A verdict is [(true, "")] or [(false, feedback)] with one of the two
    feedback texts. *)
Definition well_formed_verdict (r : outcome (bool * string)) : Prop :=
  match r with
  | Ret (true, feedback) => feedback = ""
  | Ret (false, feedback) => validator_feedback feedback
  | Raise _ => True
  end.

(** Every run of [m] ends in a well-formed verdict, without raising. *)
Definition gives_verdict (m : M (bool * string)) : Prop :=
  ∀ w, well_formed_verdict (m w).1 ∧ ∃ v, (m w).1 = Ret v.

(** A database that works until the cursor is closed. *)
Definition leaky_db : Database :=
  {| connect := λ _ _ _ _ _ _, None;
     cursor := λ _, None;
     execute := λ _ _, None;
     close_cursor := λ _, Some "DPY-1001: not connected to database";
     close_connection := λ _, None |}.


(** The block line 85 appends for one table. *)
Definition table_block (py : Library) (self : DialogueGenerator)
    (table : string) : string :=
  "Table: " +:+ table +:+ PyStr.nl
    +:+ "DDL:" +:+ PyStr.nl
    +:+ default "DDL not found" (table_ddls_hashmap self !! table) +:+ PyStr.nl
    +:+ "Column values examples:" +:+ PyStr.nl
    +:+ json_dumps py
          (JObj ((λ kv : string * column, (kv.1, process_column kv.2))
                   <$> default [] (table_column_values_hashmap self !! table)))
    +:+ PyStr.nl.

(** A model that is out of service. *)
Definition failing_generator : DialogueGenerator :=
  {| join_combination_data := [country_city; country_city];
     table_ddls_hashmap := ∅;
     table_column_values_hashmap := {[ "country" := []; "city" := [] ]};
     output_file := "dialogue_dataset.json";
     dialogue_generator := λ _ _, Raise (Failure "529 overloaded");
     dialogue_generation_prompt := "Experiment {experiment_id}";
     database_connection := "mondial/mondial_db_connection.json" |}.

(** * Properties *)

(** ** Strings *)

Lemma append_cons (c : ascii) (s t : string) :
  String c s +:+ t = String c (s +:+ t).
Proof. done. Qed.

Lemma append_nil_r (s : string) : s +:+ "" = s.
Proof. induction s as [|c s IH]; [done|]. by rewrite append_cons, IH. Qed.

Lemma append_assoc (s t u : string) : (s +:+ t) +:+ u = s +:+ t +:+ u.
Proof. induction s as [|c s IH]; [done|]. by rewrite !append_cons, IH. Qed.

Lemma is_semicolon_spec (c : ascii) :
  PyStr.is_semicolon c = true ↔ c = ";"%char.
Proof.
  split; [|by intros ->].
  by destruct c as [[] [] [] [] [] [] [] []].
Qed.

Lemma rstrip_semicolons_split (s : string) :
  ∃ n, s = PyStr.rstrip_semicolons s +:+ PyStr.repeat_char ";" n.
Proof.
  unfold PyStr.rstrip_semicolons.
  induction s as [|c s [n IH]]; [by exists 0|]. simpl.
  destruct (PyStr.rstrip_by PyStr.is_semicolon s) as [|c' r] eqn:Hr.
  - destruct (PyStr.is_semicolon c) eqn:Hc.
    + apply is_semicolon_spec in Hc as ->. exists (S n). by rewrite IH at 1.
    + exists n. by rewrite IH at 1.
  - exists n. by rewrite IH at 1.
Qed.

Lemma rstrip_semicolons_last (s : string) :
  PyStr.last_char (PyStr.rstrip_semicolons s) ≠ Some ";"%char.
Proof.
  unfold PyStr.rstrip_semicolons.
  induction s as [|c s IH]; [done|]. simpl.
  destruct (PyStr.rstrip_by PyStr.is_semicolon s) as [|c' r] eqn:Hr.
  - destruct (PyStr.is_semicolon c) eqn:Hc; [done|]. simpl.
    intros [= ->]. by rewrite (proj2 (is_semicolon_spec _)) in Hc.
  - done.
Qed.

Lemma spec_drop_terminator_keeps (s : string) :
  PyStr.last_char s ≠ Some ";"%char → spec_drop_terminator s = s.
Proof.
  induction s as [|c s IH]; [done|]. destruct s as [|c' s'].
  - simpl. destruct (PyStr.is_semicolon c) eqn:Hc; [|done].
    apply is_semicolon_spec in Hc as ->. done.
  - intros H. change (String c (spec_drop_terminator (String c' s')) = String c (String c' s')).
    f_equal. by apply IH.
Qed.

Lemma spec_drop_terminator_snoc (s : string) :
  spec_drop_terminator (s +:+ ";") = s.
Proof.
  induction s as [|c s IH]; [done|]. rewrite append_cons.
  destruct (s +:+ ";") as [|c' s'] eqn:Hs.
  - by destruct s.
  - change (String c (spec_drop_terminator (String c' s')) = String c s).
    by rewrite IH.
Qed.

Lemma repeat_char_snoc (c : ascii) (n : nat) :
  PyStr.repeat_char c (S n) = PyStr.repeat_char c n +:+ String c "".
Proof.
  induction n as [|n IH]; [done|].
  change (PyStr.repeat_char c (S (S n)))
    with (String c (PyStr.repeat_char c (S n))).
  by rewrite IH at 1.
Qed.

Lemma append_eq_self (s t : string) : s = s +:+ t → t = "".
Proof.
  induction s as [|c s IH]; [done|]. rewrite append_cons. intros [= H]. auto.
Qed.

(** ** Trace projections *)

Lemma invocations_app (t1 t2 : list event) :
  invocations (t1 ++ t2) = invocations t1 ++ invocations t2.
Proof. apply omap_app. Qed.

Lemma statements_app (t1 t2 : list event) :
  statements (t1 ++ t2) = statements t1 ++ statements t2.
Proof. apply omap_app. Qed.

Lemma skips_app (t1 t2 : list event) :
  skips (t1 ++ t2) = skips t1 ++ skips t2.
Proof. apply omap_app. Qed.

Lemma announced_app (t1 t2 : list event) :
  announced (t1 ++ t2) = announced t1 ++ announced t2.
Proof. apply omap_app. Qed.

(** ** Sequencing *)

Lemma bind_eq {A B} (m : M A) (k : A → M B) (w : World) :
  bind m k w = match m w with
               | (Ret a, w') => k a w'
               | (Raise e, w') => (Raise e, w')
               end.
Proof. done. Qed.

Lemma bind_ret_inv {A B} (m : M A) (k : A → M B) (w w' : World) (b : B) :
  bind m k w = (Ret b, w') →
  ∃ a w1, m w = (Ret a, w1) ∧ k a w1 = (Ret b, w').
Proof.
  unfold bind. destruct (m w) as [[a|e] w1]; [|done]. by exists a, w1.
Qed.

(** ** Footprints *)

Lemma bounded_le {A} (n n' : nat) (m : M A) :
  bounded n m → n ≤ n' → bounded n' m.
Proof.
  intros H Hle w. destruct (H w) as (Hfs & evs & Htr & Hsk & Han & Hlen).
  split; [done|]. exists evs. split_and!; [done..|lia].
Qed.

Lemma bounded_ret {A} (a : A) : bounded 0 (ret a).
Proof. intros w. split; [done|]. exists []. by rewrite app_nil_r. Qed.

Lemma bounded_raise {A} (e : exn) : bounded 0 (raise (A:=A) e).
Proof. intros w. split; [done|]. exists []. by rewrite app_nil_r. Qed.

Lemma bounded_lift {A} (o : outcome A) : bounded 0 (lift o).
Proof. intros w. split; [done|]. exists []. by rewrite app_nil_r. Qed.

Lemma bounded_ask {A} (f : list event → A) : bounded 0 (ask f).
Proof. intros w. split; [done|]. exists []. by rewrite app_nil_r. Qed.

Lemma bounded_read_fs : bounded 0 read_fs.
Proof. intros w. split; [done|]. exists []. by rewrite app_nil_r. Qed.

Lemma bounded_bind {A B} (n1 n2 : nat) (m : M A) (k : A → M B) :
  bounded n1 m → (∀ a, bounded n2 (k a)) → bounded (n1 + n2) (bind m k).
Proof.
  intros Hm Hk w. unfold bind.
  destruct (Hm w) as (Hfs & evs & Htr & Hsk & Han & Hlen).
  destruct (m w) as [[a|e] w1]; simpl in *.
  - destruct (Hk a w1) as (Hfs' & evs' & Htr' & Hsk' & Han' & Hlen').
    split; [congruence|]. exists (evs ++ evs').
    rewrite Htr', Htr, skips_app, announced_app, invocations_app, length_app,
      Hsk, Hsk', Han, Han'.
    split_and!; [by rewrite app_assoc|done|done|lia].
  - split; [done|]. exists evs. split_and!; [done..|lia].
Qed.

Lemma bounded_print (l : line) :
  (∀ n file, l ≠ LUsingCheckpoint n file) →
  (∀ n total, l ≠ LGenerating n total) →
  bounded 0 (print l).
Proof.
  intros Hl Hg w. split; [done|]. exists [Print l]. split; [done|].
  destruct l; try done.
  - by destruct (Hg number total).
  - by destruct (Hl number file).
Qed.

Lemma bounded_emit_db (ev : event) :
  match ev with Print _ | Invoke _ _ => False | _ => True end →
  bounded 0 (emit ev).
Proof. intros Hev w. split; [done|]. exists [ev]. by destruct ev. Qed.

Lemma bounded_emit_invoke (p : string) (a : outcome Experiment) :
  bounded 1 (emit (Invoke p a)).
Proof. intros w. split; [done|]. by exists [Invoke p a]. Qed.

Section Footprints.
Variable db : Database.
Variable py : Library.
Variable self : DialogueGenerator.

Lemma bounded_generate_dialogue (prompt : string) :
  bounded 1 (generate_dialogue self prompt).
Proof.
  unfold generate_dialogue.
  apply (bounded_bind 0 1); [apply bounded_ask|intros a].
  apply (bounded_bind 1 0); [apply bounded_emit_invoke|intros _].
  apply bounded_lift.
Qed.

Lemma bounded_check_interactions (todo : list Interaction)
    (sql_errors : list string) :
  bounded 0 (check_interactions db todo sql_errors).
Proof.
  revert sql_errors. induction todo as [|it rest IH]; intros errs; simpl.
  { apply bounded_ret. }
  apply (bounded_bind 0 0); [apply bounded_ask|intros a].
  apply (bounded_bind 0 0); [by apply bounded_emit_db|intros _].
  destruct a as [cause|]; [|apply IH].
  apply (bounded_bind 0 0); [by apply bounded_print|intros _]. apply IH.
Qed.

Lemma bounded_connection_error (cause : string) :
  bounded 0 (connection_error cause).
Proof.
  apply (bounded_bind 0 0); [by apply bounded_print|intros _].
  apply bounded_ret.
Qed.

Lemma bounded_guarded answer record next :
  (∀ a, match record a with Print _ | Invoke _ _ => False | _ => True end) →
  bounded 0 next → bounded 0 (guarded answer record next).
Proof.
  intros Hrec Hnext. unfold guarded.
  apply (bounded_bind 0 0); [apply bounded_ask|intros a].
  apply (bounded_bind 0 0); [apply bounded_emit_db, Hrec|intros _].
  destruct a; [apply bounded_connection_error|done].
Qed.

Lemma bounded_load_settings : bounded 0 (load_settings self).
Proof.
  unfold load_settings.
  repeat (apply (bounded_bind 0 0);
          [first [apply bounded_read_fs | apply bounded_lift]|intros ?]).
  apply bounded_ret.
Qed.

Lemma bounded_check_dialogue_sintax (dialogue : Experiment) :
  bounded 0 (check_dialogue_sintax db self dialogue).
Proof.
  unfold check_dialogue_sintax.
  apply (bounded_bind 0 0); [apply bounded_load_settings|].
  intros [[[[host port] user] pass] service].
  apply bounded_guarded; [done|]. apply bounded_guarded; [done|].
  apply (bounded_bind 0 0); [apply bounded_check_interactions|intros errs].
  apply bounded_guarded; [done|]. apply bounded_guarded; [done|].
  destruct errs; apply bounded_ret.
Qed.

Lemma bounded_retry_loop number prompt budget dialogue is_valid feedback :
  bounded budget
    (retry_loop db self number prompt budget dialogue is_valid feedback).
Proof.
  revert dialogue is_valid feedback.
  induction budget as [|budget IH]; intros d v fb; simpl.
  { destruct v; apply bounded_ret. }
  destruct v; [eapply bounded_le; [apply bounded_ret|lia]|].
  apply (bounded_bind 0 (S budget)); [by apply bounded_print|intros _].
  apply (bounded_bind 1 budget); [apply bounded_generate_dialogue|intros d'].
  apply (bounded_bind 0 budget); [apply bounded_check_dialogue_sintax|].
  intros [v' fb']. apply IH.
Qed.

Lemma bounded_candidate (i : nat) (combination : Combination) :
  bounded 4 (candidate db py self i combination).
Proof.
  unfold candidate.
  apply (bounded_bind 0 4); [apply bounded_lift|intros prompt].
  apply (bounded_bind 1 3); [apply bounded_generate_dialogue|intros d].
  apply (bounded_bind 0 3); [by apply bounded_print|intros _].
  apply (bounded_bind 0 3); [apply bounded_check_dialogue_sintax|].
  intros [v fb]. apply bounded_retry_loop.
Qed.

End Footprints.

(** ** Checkpoint store *)

Lemma get_equals_object (id : string) (x : json) :
  is_object x = true →
  Json.get_equals "experiment_id" id x = Ret (has_id id x).
Proof. by destruct x. Qed.

Lemma get_equals_true (id : string) (x : json) :
  Json.get_equals "experiment_id" id x = Ret true → has_id id x = true.
Proof. destruct x; simpl; congruence. Qed.

Lemma get_equals_false (id : string) (x : json) :
  Json.get_equals "experiment_id" id x = Ret false → has_id id x = false.
Proof. destruct x; simpl; congruence. Qed.

Lemma scan_dataset_true (id : string) (items : list json) :
  scan_dataset id items = Ret true → existsb (has_id id) items = true.
Proof.
  induction items as [|x items IH]; simpl; [done|].
  destruct (Json.get_equals "experiment_id" id x) as [[]|] eqn:Hx; [..|done].
  - by rewrite (get_equals_true _ _ Hx).
  - intros H. rewrite (IH H). apply orb_true_r.
Qed.

Lemma scan_dataset_false (id : string) (items : list json) :
  scan_dataset id items = Ret false → List.filter (has_id id) items = [].
Proof.
  induction items as [|x items IH]; simpl; [done|].
  destruct (Json.get_equals "experiment_id" id x) as [[]|] eqn:Hx; [done| |done].
  rewrite (get_equals_false _ _ Hx). apply IH.
Qed.

Lemma scan_dataset_objects (id : string) (items : list json) :
  forallb is_object items = true →
  scan_dataset id items = Ret (existsb (has_id id) items).
Proof.
  induction items as [|x items IH]; simpl; [done|].
  intros [Hx Hrest]%andb_true_iff. rewrite (get_equals_object _ _ Hx).
  destruct (has_id id x); [done|]. by apply IH.
Qed.

Lemma scan_dataset_raise (id : string) (items : list json) (e : exn) :
  scan_dataset id items = Raise e → e = AttributeError.
Proof.
  induction items as [|x items IH]; simpl; [done|].
  destruct x; simpl; try congruence.
  by destruct (Dict.get "experiment_id" fields) as [[]|]; simpl;
    try case_bool_decide.
Qed.

Lemma dict_get_set {V} (k : string) (v : V) (d : list (string * V)) :
  Dict.get k (Dict.set k v d) = Some v.
Proof.
  induction d as [|[k' v'] d IH]; simpl.
  - by rewrite decide_True.
  - destruct (decide (k' = k)) as [->|Hne]; simpl.
    + by rewrite decide_True.
    + by rewrite decide_False.
Qed.

(** A lookup reads the file system and touches nothing. *)
Lemma dialogue_exists_world (id path : string) (w : World) :
  (dialogue_exists_in_dataset id path w).2 = w.
Proof.
  unfold dialogue_exists_in_dataset, try_except, bind, read_fs, lift, ret.
  destruct (path_exists path (fs w)); simpl; [|done].
  destruct (load_json path (fs w)) as [v|e]; simpl; [|by destruct e].
  destruct (Json.contains "dataset" v) as [[]|e]; simpl; [|done|by destruct e].
  destruct (Json.subscript "dataset" v) as [ds|e]; simpl; [|by destruct e].
  destruct (Json.iterate ds) as [xs|e]; simpl; [|by destruct e].
  destruct (scan_dataset id xs) as [b|e]; simpl; [done|by destruct e].
Qed.

Lemma dialogue_exists_fs (id path : string) (w w' : World) :
  fs w = fs w' →
  (dialogue_exists_in_dataset id path w).1
  = (dialogue_exists_in_dataset id path w').1.
Proof.
  intros Hfs.
  unfold dialogue_exists_in_dataset, try_except, bind, read_fs, lift, ret.
  rewrite <- Hfs.
  destruct (path_exists path (fs w)); simpl; [|done].
  destruct (load_json path (fs w)) as [v|e]; simpl; [|by destruct e].
  destruct (Json.contains "dataset" v) as [[]|e]; simpl; [|done|by destruct e].
  destruct (Json.subscript "dataset" v) as [ds|e]; simpl; [|by destruct e].
  destruct (Json.iterate ds) as [xs|e]; simpl; [|by destruct e].
  destruct (scan_dataset id xs) as [b|e]; simpl; [done|by destruct e].
Qed.

Ltac unfold_store :=
  unfold dialogue_exists_in_dataset, try_except, bind, read_fs, lift, ret,
    path_exists, load_json, checkpointed, count_id, dataset_of, regular.

Lemma contains_dataset_false (v : json) :
  Json.contains "dataset" v = Ret false →
  match v with
  | JObj fields => Dict.get "dataset" fields = None
  | _ => True
  end.
Proof.
  destruct v as [| | | | | |fields]; try done. simpl.
  by destruct (Dict.get "dataset" fields).
Qed.

Lemma dialogue_exists_regular (id path : string) (w : World) :
  regular path (fs w) = true →
  (dialogue_exists_in_dataset id path w).1
  = Ret (checkpointed id path (fs w)).
Proof.
  unfold_store.
  destruct (nodes (fs w) !! path) as [[| |v]|]; simpl; [done|done| |done].
  destruct (Json.contains "dataset" v) as [[]|e] eqn:Hc; simpl; [| |done].
  - destruct v as [| | | | | |fields]; try done. simpl.
    destruct (Dict.get "dataset" fields) as [[]|]; simpl; try done.
    intros H. rewrite (scan_dataset_objects _ _ H).
    by destruct (existsb (has_id id) items).
  - intros _. apply contains_dataset_false in Hc.
    destruct v as [| | | | | |fields]; try done. by rewrite Hc.
Qed.

Lemma dialogue_exists_true (id path : string) (w : World) :
  (dialogue_exists_in_dataset id path w).1 = Ret true →
  checkpointed id path (fs w) = true.
Proof.
  unfold_store.
  destruct (nodes (fs w) !! path) as [[| |v]|]; simpl; [done|done| |done].
  destruct (Json.contains "dataset" v) as [[]|e] eqn:Hc; simpl;
    [|done|by destruct e].
  destruct v as [| | | | | |fields]; try done. simpl.
  destruct (Dict.get "dataset" fields) as [ds|]; simpl; [|done].
  destruct ds as [| | |s|before after more|items|fields']; simpl; try done.
  - by destruct s.
  - by destruct before.
  - destruct (scan_dataset id items) as [[]|e] eqn:Hs; simpl;
      [|done|by destruct e].
    intros _. by apply scan_dataset_true.
  - by destruct fields' as [|[]].
Qed.

Lemma dialogue_exists_false (id path : string) (w : World) :
  (dialogue_exists_in_dataset id path w).1 = Ret false →
  count_id id path (fs w) = 0.
Proof.
  unfold_store.
  destruct (nodes (fs w) !! path) as [[| |v]|]; simpl; [done|done| |done].
  destruct v as [| | | | | |fields]; try done. simpl.
  destruct (Dict.get "dataset" fields) as [ds|]; simpl; [|done].
  destruct ds as [| | | | |items|]; try done. simpl.
  destruct (scan_dataset id items) as [[]|e] eqn:Hs; simpl;
    [done| |by rewrite (scan_dataset_raise _ _ _ Hs)].
  intros _. by rewrite (scan_dataset_false _ _ Hs).
Qed.

Lemma load_existing_eq (path : string) (f : filesystem) (w : World) :
  (if path_exists path f then
     try_except
       (bind (lift (load_json path f))
          (λ existing_data,
             bind (lift (Json.contains "dataset" existing_data))
               (λ has_key,
                  if negb has_key then ret empty_document
                  else ret existing_data)))
       is_json_decode_error
       (λ _, ret empty_document)
   else ret empty_document) w
  = (current_document path f, w).
Proof.
  unfold path_exists, load_json, current_document, try_except, bind, lift, ret.
  destruct (nodes f !! path) as [[| |v]|]; simpl; try done.
  destruct (Json.contains "dataset" v) as [[]|e] eqn:Hc; simpl; try done.
  destruct v; simpl in Hc; by simplify_eq.
Qed.

Lemma dump_json_eq (path : string) (doc : json) (w : World) :
  dump_json path doc w
  = (match (write_result path doc (fs w)).2 with
     | LSaveError ex => Raise ex
     | _ => Ret tt
     end,
     {| fs := match (write_result path doc (fs w)).1 with
              | Some n => with_node path n (fs w)
              | None => fs w
              end;
        trace := trace w |}).
Proof.
  unfold dump_json, open_for_writing, put_node, write_result, with_node,
    raise, bind, read_fs; simpl.
  destruct (decide (path ∈ sealed (fs w))) as [Hs|Hs];
    destruct (decide (path ∈ torn (fs w))) as [Ht|Ht]; simpl;
    rewrite ?decide_True, ?decide_False by tauto; simpl;
    rewrite ?decide_True, ?decide_False by tauto; simpl;
    try destruct (Json.encodable doc); simpl;
    rewrite ?insert_insert_eq; try done.
  all: by destruct w.
Qed.

(** The save never raises: every failure ends in the handler of line 271. *)
Lemma save_dialogue_to_file_eq (e : Experiment) (path : string) (w : World) :
  save_dialogue_to_file e path w = (Ret tt, saved_world e path w).
Proof.
  unfold save_dialogue_to_file, saved_world, next_document.
  unfold try_except at 1. rewrite bind_eq. unfold print at 1, emit at 1.
  rewrite bind_eq. unfold read_fs at 1. rewrite bind_eq.
  cbn [fs trace]. rewrite load_existing_eq.
  destruct (current_document path (fs w)) as [existing_data|ex];
    [|by unfold print, emit, log; simpl; rewrite <- app_assoc].
  rewrite bind_eq. unfold lift at 1.
  destruct (append_to_dataset existing_data (model_dump e)) as [doc|ex];
    [|by unfold print, emit, log; simpl; rewrite <- app_assoc].
  rewrite bind_eq, dump_json_eq. cbn [fs trace].
  destruct (write_result path doc (fs w)) as [n l] eqn:Hres.
  assert (l = LAdded path ∨ ∃ ex, l = LSaveError ex) as [->|[ex ->]].
  { revert Hres. unfold write_result.
    repeat case_decide; try destruct (Json.encodable doc);
      intros [= <- <-]; eauto. }
  all: unfold print, emit; simpl; by rewrite <- app_assoc.
Qed.




(** The document about to be written ends with the experiment; what comes
    before it is the dataset found, or nothing after a reset. *)
Lemma next_document_ret (e : Experiment) (path : string) (f : filesystem)
    (doc : json) :
  next_document e path f = Ret doc →
  ∃ fields items,
    doc = JObj fields
    ∧ Dict.get "dataset" fields = Some (JArr (items ++ [model_dump e]))
    ∧ (dataset_of path f = Some items
       ∨ (dataset_of path f = None ∧ items = [])).
Proof.
  assert (∃ fields items,
    JObj [("dataset", JArr [model_dump e])] = JObj fields
    ∧ Dict.get "dataset" fields = Some (JArr (items ++ [model_dump e]))
    ∧ items = []) as Hreset.
  { by exists [("dataset", JArr [model_dump e])], []. }
  destruct Hreset as (fields0 & items0 & Hdoc0 & Hget0 & ->).
  unfold next_document, current_document, dataset_of.
  destruct (nodes f !! path) as [[| |v]|]; simpl; [done| | |].
  - intros [= <-]. exists fields0, []. split_and!; [done..|by right].
  - destruct (Json.contains "dataset" v) as [[]|] eqn:Hc; [| |done].
    + destruct v as [| | | | | |fields]; try done.
      unfold append_to_dataset. simpl.
      destruct (Dict.get "dataset" fields) as [[| | | | |items|]|] eqn:Hd;
        try done.
      intros [= <-].
      exists (Dict.set "dataset" (JArr (items ++ [model_dump e])) fields), items.
      split_and!; [done|apply dict_get_set|by left].
    + intros [= <-]. exists fields0, []. split_and!; [done..|right].
      split; [|done]. destruct v as [| | | | | |fields]; try done.
      simpl in Hc. by destruct (Dict.get "dataset" fields).
  - intros [= <-]. exists fields0, []. split_and!; [done..|by right].
Qed.








(** What the save leaves at [path] otherwise: the file as it was, or a
    truncated one. *)
Lemma saved_world_node (e : Experiment) (path : string) (w : World) :
  fs (saved_world e path w) = fs w
  ∨ fs (saved_world e path w) = with_node path Garbage (fs w)
  ∨ ∃ doc, next_document e path (fs w) = Ret doc
           ∧ fs (saved_world e path w) = with_node path (Doc doc) (fs w).
Proof.
  unfold saved_world, write_result.
  destruct (next_document e path (fs w)) as [doc|ex]; [|by left].
  repeat case_decide; try destruct (Json.encodable doc); simpl; eauto.
Qed.

(** ** Validator *)

Lemma load_settings_ok (self : DialogueGenerator) (w : World)
    (host port user pass service : json) :
  settings_in (database_connection self) (fs w) host port user pass service →
  load_settings self w = (Ret (host, port, user, pass, service), w).
Proof.
  intros (fields & Hnode & Hh & Hp & Hu & Hpw & Hs).
  unfold load_settings, bind, read_fs, lift, ret, load_json. simpl.
  rewrite Hnode. simpl. by rewrite Hh, Hp, Hu, Hpw, Hs.
Qed.

(** The statement loop sends every interaction's statement, in order,
    whatever the answers, and collects one line per failing statement. *)
Lemma check_interactions_spec (db : Database) (todo : list Interaction)
    (sql_errors : list string) (w : World) :
  ∃ answers,
    length answers = length todo
    ∧ (check_interactions db todo sql_errors w).1
      = Ret (sql_errors ++ failures (zip todo answers))
    ∧ statements (trace (check_interactions db todo sql_errors w).2)
      = statements (trace w) ++ zip (statement_of <$> todo) answers.
Proof.
  revert sql_errors w. induction todo as [|it rest IH]; intros errs w.
  { exists []. simpl. by rewrite !app_nil_r. }
  simpl. unfold bind, ask, emit, print; simpl.
  destruct (execute db (trace w) (prepare_sql (golden_sql (ground_truths it))))
    as [cause|] eqn:Hans; simpl.
  - match goal with |- context [check_interactions db rest ?e ?w1] =>
      destruct (IH e w1) as (answers & Hlen & Hret & Hst) end.
    exists (Some cause :: answers). simpl.
    rewrite Hret, Hst. simpl. rewrite !statements_app. simpl.
    rewrite app_nil_r, <- !app_assoc. split_and!; [by f_equal|done..].
  - match goal with |- context [check_interactions db rest ?e ?w1] =>
      destruct (IH e w1) as (answers & Hlen & Hret & Hst) end.
    exists (None :: answers). simpl.
    rewrite Hret, Hst. simpl. rewrite !statements_app. simpl.
    rewrite <- !app_assoc. split_and!; [by f_equal|done..].
Qed.

Lemma feedback_of_starts (sql_errors : list string) :
  ∃ rest, feedback_of sql_errors = String "010" rest.
Proof.
  unfold feedback_of, feedback_preamble, PyStr.nl.
  rewrite !append_cons. by eexists.
Qed.

Lemma concat_occurs (sep x : string) (l : list string) :
  x ∈ l → occurs_in x (String.concat sep l).
Proof.
  induction l as [|y l IH]; [by intros ?%elem_of_nil|].
  intros [->|Hin]%elem_of_cons.
  - destruct l as [|z l]; simpl.
    + exists "", "". by rewrite append_nil_r.
    + by exists "", (sep +:+ String.concat sep (z :: l)).
  - destruct (IH Hin) as (before & after & Heq).
    destruct l as [|z l]; [by apply elem_of_nil in Hin|].
    exists (y +:+ sep +:+ before), after.
    change (String.concat sep (y :: z :: l))
      with (y +:+ sep +:+ String.concat sep (z :: l)).
    by rewrite Heq, !append_assoc.
Qed.

Lemma feedback_of_occurs (x : string) (sql_errors : list string) :
  x ∈ sql_errors → occurs_in x (feedback_of sql_errors).
Proof.
  intros (before & after & Heq)%(concat_occurs PyStr.nl).
  exists (feedback_preamble +:+ before), (after +:+ feedback_trailer).
  unfold feedback_of. by rewrite Heq, !append_assoc.
Qed.

Lemma failures_elem (it : Interaction) (cause : string)
    (answered : list (Interaction * option string)) :
  (it, Some cause) ∈ answered → error_line it cause ∈ failures answered.
Proof.
  intros Hin. unfold failures. apply list_elem_of_omap.
  by exists (it, Some cause).
Qed.

(** ** Prompt builder *)

Lemma tables_context_loop_missing (py : Library) (self : DialogueGenerator)
    (tables_involved : list string) (tables_context : string) :
  (∃ table, table ∈ tables_involved
            ∧ table_column_values_hashmap self !! table = None) →
  tables_context_loop py self tables_involved tables_context
  = Raise AttributeError.
Proof.
  revert tables_context.
  induction tables_involved as [|t rest IH]; intros ctx (table & Hin & Hnone).
  { by apply elem_of_nil in Hin. }
  simpl. destruct (table_column_values_hashmap self !! t) as [cols|] eqn:Ht;
    simpl; [|done].
  apply IH. exists table. split; [|done].
  apply elem_of_cons in Hin as [->|Hin]; [congruence|done].
Qed.

(** ** Generator loop *)

Lemma dialogue_exists_eq (id path : string) (w : World) :
  dialogue_exists_in_dataset id path w
  = ((dialogue_exists_in_dataset id path w).1, w).
Proof.
  rewrite <- (dialogue_exists_world id path w) at 3.
  by destruct (dialogue_exists_in_dataset id path w).
Qed.

Lemma saved_world_trace (e : Experiment) (path : string) (w : World) :
  ∃ l, trace (saved_world e path w)
       = trace w ++ [Print (LSaving (model_dump e)); Print l]
       ∧ (l = LAdded path ∨ ∃ ex, l = LSaveError ex).
Proof.
  unfold saved_world, write_result.
  destruct (next_document e path (fs w)) as [doc|ex];
    [|eexists; split; [done|eauto]].
  repeat case_decide; try destruct (Json.encodable doc);
    eexists; (split; [done|]); eauto.
Qed.

Lemma check_dialogue_sintax_quiet (db : Database) (self : DialogueGenerator)
    (dialogue : Experiment) (w : World) :
  fs (check_dialogue_sintax db self dialogue w).2 = fs w
  ∧ ∃ evs, trace (check_dialogue_sintax db self dialogue w).2 = trace w ++ evs
           ∧ invocations evs = [] ∧ skips evs = [] ∧ announced evs = [].
Proof.
  destruct (bounded_check_dialogue_sintax db self dialogue w)
    as (Hfs & evs & Htr & Hsk & Han & Hlen).
  split; [done|]. exists evs. split_and!; [done| |done|done].
  destruct (invocations evs); [done|simpl in Hlen; lia].
Qed.

(** ** Labels *)

Lemma default_last_cons {A} (x y : A) (l : list A) :
  default x (last (y :: l)) = default y (last l).
Proof.
  destruct l as [|z l]; [done|].
  change (last (y :: z :: l)) with (last (z :: l)).
  destruct (last (z :: l)) eqn:Hlast; [done|]. by apply last_None in Hlast.
Qed.

Lemma labelled_app (number : nat) (evs evs' : list event) :
  labelled number (evs ++ evs') →
  labelled number evs
  ∧ labelled (default number (last (announced evs))) evs'.
Proof.
  revert number. induction evs as [|ev evs IH]; intros number; [done|].
  destruct ev as [[k total| | | | | | |]|p [d|e]| | | | |]; simpl;
    try apply IH.
  - intros [H1 H2]%IH. split; [done|].
    change (announced (Print (LGenerating k total) :: evs))
      with (k :: announced evs).
    by rewrite default_last_cons.
  - intros [Hd [H1 H2]%IH]. done.
Qed.

Lemma labelled_elem (number : nat) (evs : list event) (p : string)
    (d : Experiment) :
  announced evs = [] →
  labelled number evs →
  Invoke p (Ret d) ∈ evs →
  experiment_id d = pretty number.
Proof.
  induction evs as [|ev evs IH]; [by intros _ _ ?%elem_of_nil|].
  intros Han Hlab [<-|Hin]%elem_of_cons; [by destruct Hlab|].
  destruct ev as [[k total| | | | | | |]|q [d'|e]| | | | |]; simpl in *;
    try done; try by apply IH.
  destruct Hlab. by apply IH.
Qed.


(** A save never lets an id that the lookup did not find occur twice, and
    leaves the other ids with what they had, or less after a reset. *)
Lemma saved_world_count (e : Experiment) (path id : string) (w : World) :
  (dialogue_exists_in_dataset (experiment_id e) path w).1 = Ret false →
  count_id id path (fs (saved_world e path w))
  ≤ count_id id path (fs w) `max` 1.
Proof.
  intros Hnot%dialogue_exists_false.
  destruct (saved_world_node e path w) as [->|[->|(doc & Hdoc & ->)]]; [lia|..].
  { unfold count_id, dataset_of at 1. simpl. rewrite lookup_insert_eq. lia. }
  destruct (next_document_ret e path (fs w) doc Hdoc)
    as (fields & items & -> & Hget & Hitems).
  unfold count_id in *. unfold dataset_of at 1. simpl.
  rewrite lookup_insert_eq, Hget, List.filter_app, length_app. simpl.
  destruct (decide (experiment_id e = id)) as [<-|Hne].
  - rewrite bool_decide_true by done. simpl.
    destruct Hitems as [Hsome|[_ ->]]; [|simpl; lia].
    rewrite Hsome in Hnot. rewrite Hnot. lia.
  - rewrite bool_decide_false by done. simpl.
    destruct Hitems as [Hsome|[_ ->]]; [|simpl; lia].
    rewrite Hsome. lia.
Qed.

Section Loop.
Variable db : Database.
Variable py : Library.
Variable self : DialogueGenerator.

Lemma generate_dialogue_ret (prompt : string) (w w' : World) (d : Experiment) :
  generate_dialogue self prompt w = (Ret d, w') →
  dialogue_generator self (trace w) prompt = Ret d.
Proof.
  unfold generate_dialogue, bind, ask, emit, lift; simpl.
  by destruct (dialogue_generator self (trace w) prompt); intros [= <- <-].
Qed.

Lemma retry_loop_valid number prompt budget d feedback (w : World) :
  retry_loop db self number prompt budget d true feedback w = (Ret (d, true), w).
Proof. by destruct budget. Qed.

Lemma retry_loop_answered number prompt budget d v feedback w d' v' w' :
  retry_loop db self number prompt budget d v feedback w = (Ret (d', v'), w') →
  d' = d ∨ answered self prompt d'.
Proof.
  revert d v feedback w.
  induction budget as [|budget IH]; intros d v fb w; simpl.
  { destruct v; intros [= <- <- <-]; by left. }
  destruct v; [intros [= <- <- <-]; by left|].
  unfold bind at 1. unfold print, emit; simpl. unfold bind at 1.
  destruct (generate_dialogue self (prompt +:+ fb) _) as [[d1|e] w1] eqn:Hgen;
    [|done].
  apply generate_dialogue_ret in Hgen. unfold bind at 1.
  destruct (check_dialogue_sintax db self d1 w1) as [[[v1 fb1]|e] w2]; [|done].
  intros [->|Hans]%IH; [right|by right]. by eexists _, _.
Qed.

Lemma candidate_answered i combination w d v w' :
  candidate db py self i combination w = (Ret (d, v), w') →
  ∃ prompt,
    create_prompt_from_join_combination_data py self i combination = Ret prompt
    ∧ answered self prompt d.
Proof.
  unfold candidate.
  intros (prompt & w0 & Hprompt & H)%bind_ret_inv.
  apply bind_ret_inv in H as (d0 & w1 & Hgen & H).
  apply bind_ret_inv in H as (_ & w2 & _ & H).
  apply bind_ret_inv in H as ([v0 fb0] & w3 & _ & H).
  unfold lift in Hprompt. injection Hprompt as Hprompt <-.
  apply generate_dialogue_ret in Hgen.
  exists prompt. split; [done|].
  apply retry_loop_answered in H as [->|Hans]; [|done].
  exists (trace w), "". by rewrite append_nil_r.
Qed.

Lemma generate_dialogue_eq (prompt : string) (w : World) :
  generate_dialogue self prompt w
  = (dialogue_generator self (trace w) prompt,
     log w [Invoke prompt (dialogue_generator self (trace w) prompt)]).
Proof.
  unfold generate_dialogue, bind, ask, emit, lift, log; simpl.
  by destruct (dialogue_generator self (trace w) prompt).
Qed.

(** A generation leaves the file system alone, prints no skip line, and
    asks the model at most four times, at least once if it completes. *)
Lemma candidate_footprint i combination (w : World) :
  fs (candidate db py self i combination w).2 = fs w
  ∧ ∃ evs,
      trace (candidate db py self i combination w).2 = trace w ++ evs
      ∧ skips evs = []
      ∧ announced evs = []
      ∧ length (invocations evs) ≤ 4
      ∧ (∀ r, (candidate db py self i combination w).1 = Ret r →
              1 ≤ length (invocations evs)).
Proof.
  unfold candidate. rewrite bind_eq. unfold lift.
  destruct (create_prompt_from_join_combination_data py self i combination)
    as [prompt|e].
  2: { split; [done|]. exists []. rewrite app_nil_r. simpl.
       split_and!; [done|done|done|lia|done]. }
  rewrite bind_eq, generate_dialogue_eq.
  destruct (dialogue_generator self (trace w) prompt) as [d0|e].
  2: { split; [done|]. eexists. split; [done|]. simpl.
       split_and!; [done|done|lia|done]. }
  match goal with |- context [bind ?m ?k (log w ?l)] =>
    assert (bounded 3 (bind m k)) as Hrest end.
  { apply (bounded_bind 0 3); [by apply bounded_print|intros _].
    apply (bounded_bind 0 3); [apply bounded_check_dialogue_sintax|].
    intros [v fb]. apply bounded_retry_loop. }
  match goal with |- context [bind ?m ?k (log w ?l)] =>
    destruct (Hrest (log w l)) as (Hfs & evs & Htr & Hsk & Han & Hlen);
    destruct (bind m k (log w l)) as [r w1] end.
  simpl in *. split; [done|]. eexists. rewrite Htr, <- app_assoc.
  split; [done|].
  rewrite skips_app, announced_app, invocations_app, length_app, Hsk, Han.
  simpl. split_and!; [done|done|lia|intros; lia].
Qed.

(** The three ways a turn of the loop can go, by the lookup's answer. *)
Lemma loop_body_found i combination (w : World) :
  (dialogue_exists_in_dataset (pretty (i + 1)) (output_file self) w).1
  = Ret true →
  loop_body db py self i combination w
  = (Ret None,
     log w [Print (LGenerating (i + 1) (length (join_combination_data self)));
            Print (LUsingCheckpoint (i + 1) (output_file self))]).
Proof.
  intros Hfound. unfold loop_body, bind at 1, print, emit; simpl.
  unfold bind at 1. rewrite dialogue_exists_eq.
  rewrite (dialogue_exists_fs _ _ _ w) by done. rewrite Hfound.
  unfold bind, ret, log; simpl. by rewrite <- app_assoc.
Qed.

Lemma loop_body_lookup_raise i combination (w : World) (e : exn) :
  (dialogue_exists_in_dataset (pretty (i + 1)) (output_file self) w).1
  = Raise e →
  loop_body db py self i combination w
  = (Raise e,
     log w [Print (LGenerating (i + 1) (length (join_combination_data self)))]).
Proof.
  intros Hfound. unfold loop_body, bind at 1, print, emit; simpl.
  unfold bind at 1. rewrite dialogue_exists_eq.
  by rewrite (dialogue_exists_fs _ _ _ w), Hfound.
Qed.

Lemma loop_body_not_found i combination (w : World) :
  (dialogue_exists_in_dataset (pretty (i + 1)) (output_file self) w).1
  = Ret false →
  loop_body db py self i combination w
  = match candidate db py self i combination
            (log w [Print (LGenerating (i + 1)
                             (length (join_combination_data self)))]) with
    | (Ret (d, v), w1) =>
        (Ret (Some d), if v then saved_world d (output_file self) w1 else w1)
    | (Raise e, w1) => (Raise e, w1)
    end.
Proof.
  intros Hfound. unfold loop_body, bind at 1, print, emit; simpl.
  unfold bind at 1. rewrite dialogue_exists_eq.
  rewrite (dialogue_exists_fs _ _ _ w), Hfound by done.
  unfold bind at 1, log.
  destruct (candidate db py self i combination _) as [[[d v]|e] w1]; [|done].
  destruct v; unfold bind, ret; [|done].
  by rewrite save_dialogue_to_file_eq.
Qed.

(** What a turn adds to the trace: at most four model invocations, at
    least one if it made an experiment, and a skip line exactly when it made
    nothing. *)
Lemma loop_body_footprint i combination (w : World) :
  ∃ evs,
    trace (loop_body db py self i combination w).2 = trace w ++ evs
    ∧ length (invocations evs) ≤ 4
    ∧ skips evs = match (loop_body db py self i combination w).1 with
                  | Ret None => [i + 1]
                  | _ => []
                  end
    ∧ match (loop_body db py self i combination w).1 with
      | Ret None => invocations evs = []
      | Ret (Some _) => 1 ≤ length (invocations evs)
      | Raise _ => True
      end.
Proof.
  destruct ((dialogue_exists_in_dataset (pretty (i + 1)) (output_file self) w).1)
    as [[]|e] eqn:Hfound.
  - rewrite loop_body_found by done. eexists. split; [done|]. simpl.
    split_and!; [lia|done..].
  - rewrite loop_body_not_found by done.
    destruct (candidate_footprint i combination
                (log w [Print (LGenerating (i + 1)
                                 (length (join_combination_data self)))]))
      as (Hfs & evs & Htr & Hsk & Han & Hlen & Hone).
    destruct (candidate db py self i combination _) as [[[d v]|e] w1];
      simpl in *.
    + specialize (Hone _ eq_refl). destruct v.
      * destruct (saved_world_trace d (output_file self) w1)
          as (l & -> & Hl).
        rewrite Htr, <- !app_assoc. eexists. split; [done|].
        rewrite !invocations_app, !skips_app, Hsk, !length_app.
        destruct Hl as [->|[ex ->]]; simpl; (split_and!; [lia|done|lia]).
      * rewrite Htr, <- !app_assoc. eexists. split; [done|].
        rewrite !invocations_app, !skips_app, Hsk, !length_app.
        simpl. split_and!; [lia|done|lia].
    + rewrite Htr, <- !app_assoc. eexists. split; [done|].
      rewrite !invocations_app, !skips_app, Hsk, !length_app.
      simpl. split_and!; [lia|done..].
  - rewrite (loop_body_lookup_raise _ _ _ e) by done. eexists. split; [done|].
    simpl. split_and!; [lia|done..].
Qed.

Lemma loop_body_fs_found i combination (w : World) :
  (loop_body db py self i combination w).1 = Ret None →
  fs (loop_body db py self i combination w).2 = fs w
  ∧ (dialogue_exists_in_dataset (pretty (i + 1)) (output_file self) w).1
    = Ret true.
Proof.
  destruct ((dialogue_exists_in_dataset (pretty (i + 1)) (output_file self) w).1)
    as [[]|e] eqn:Hfound.
  - by rewrite loop_body_found.
  - rewrite loop_body_not_found by done.
    by destruct (candidate db py self i combination _) as [[[d v]|e] w1].
  - by rewrite (loop_body_lookup_raise _ _ _ e).
Qed.

Lemma loop_body_made i combination (w w' : World) (d : Experiment) :
  loop_body db py self i combination w = (Ret (Some d), w') →
  (dialogue_exists_in_dataset (pretty (i + 1)) (output_file self) w).1
  = Ret false.
Proof.
  destruct ((dialogue_exists_in_dataset (pretty (i + 1)) (output_file self) w).1)
    as [[]|e] eqn:Hfound; [|done|].
  - by rewrite loop_body_found.
  - by rewrite (loop_body_lookup_raise _ _ _ e).
Qed.

Lemma skipped_numbers_length (i : nat) (made : list (option Experiment)) :
  length (omap id made) + length (skipped_numbers i made) = length made.
Proof.
  revert i. induction made as [|[d|] made IH]; intros i; [done|..].
  - change (S (length (omap id made) + length (skipped_numbers (S i) made))
            = S (length made)).
    by rewrite IH.
  - change (length (omap id made) + S (length (skipped_numbers (S i) made))
            = S (length made)).
    by rewrite Nat.add_succ_r, IH.
Qed.

Lemma turns_length (i : nat) (todo : list Combination)
    (made : list (option Experiment)) (w w' : World) :
  turns db py self i todo w made w' → length made = length todo.
Proof. induction 1; simpl; congruence. Qed.

(** The [for] loop, turn by turn. *)
Lemma for_loop_spec (i : nat) (todo : list Combination)
    (dialogues out : list Experiment) (w w' : World) :
  for_loop db py self i todo dialogues w = (Ret out, w') →
  ∃ made evs,
    turns db py self i todo w made w'
    ∧ out = dialogues ++ omap id made
    ∧ trace w' = trace w ++ evs
    ∧ skips evs = skipped_numbers i made.
Proof.
  revert i dialogues w.
  induction todo as [|c rest IH]; intros i ds w; simpl.
  { intros [= <- <-]. exists [], []. rewrite !app_nil_r.
    split_and!; [constructor|done..]. }
  intros (m & w1 & Hbody & Hrest)%bind_ret_inv.
  apply IH in Hrest as (made & evs & Hturns & Hout & Htr & Hsk).
  destruct (loop_body_footprint i c w) as (evs1 & Htr1 & _ & Hsk1 & _).
  rewrite Hbody in Htr1, Hsk1. simpl in Htr1, Hsk1.
  exists (m :: made), (evs1 ++ evs).
  split_and!.
  - destruct m as [d|].
    + eapply turns_generated; [by eapply loop_body_made|done..].
    + eapply turns_skipped; [|done..].
      by destruct (loop_body_fs_found i c w) as [_ ?]; [rewrite Hbody|].
  - rewrite Hout. destruct m; simpl; [by rewrite <- app_assoc|done].
  - by rewrite Htr, Htr1, app_assoc.
  - rewrite skips_app, Hsk1, Hsk. by destruct m.
Qed.

Lemma generate_dialogue_world (prompt : string) (w w' : World)
    (d : Experiment) :
  generate_dialogue self prompt w = (Ret d, w') →
  w' = log w [Invoke prompt (Ret d)].
Proof.
  rewrite generate_dialogue_eq. intros [= Hans <-]. by rewrite Hans.
Qed.

(** The retry loop of the embedding and the loop as the source words it
    are the same: [budget] is what is left of three retries. *)
Lemma retry_loop_retries number prompt budget n d v feedback w d' v' w' :
  n + budget = 3 →
  retry_loop db self number prompt budget d v feedback w = (Ret (d', v'), w')
  ↔ ∃ m, retries db self number prompt n d v feedback w m d' v' w'.
Proof.
  revert n d v feedback w. induction budget as [|budget IH];
    intros n d v fb w Hn.
  { assert (n = 3) as -> by lia. simpl. split.
    - destruct v; intros [= <- <- <-]; exists 3; constructor.
    - intros [m H]. inversion H; subst; try done. lia. }
  destruct v.
  { rewrite retry_loop_valid. split.
    - intros [= <- <- <-]. exists n. constructor.
    - intros [m H]. by inversion H; subst. }
  change (retry_loop db self number prompt (S budget) d false fb)
    with (bind (print (LRetrying number (3 - S budget + 1)))
            (λ _, bind (generate_dialogue self (prompt +:+ fb))
               (λ d1, bind (check_dialogue_sintax db self d1)
                  (λ verdict,
                     let '(is_valid', feedback') := verdict in
                     retry_loop db self number prompt budget d1
                       is_valid' feedback')))).
  replace (3 - S budget + 1) with (n + 1) by lia.
  rewrite bind_eq. unfold print, emit. cbn [fst snd]. rewrite bind_eq.
  fold (log w [Print (LRetrying number (n + 1))]).
  split.
  - destruct (generate_dialogue self (prompt +:+ fb) _) as [[d1|e] w1] eqn:Hgen;
      [|done].
    rewrite bind_eq.
    destruct (check_dialogue_sintax db self d1 w1) as [[[v1 fb1]|e] w2] eqn:Hc;
      [|done].
    intros [m Hm]%(IH (S n)); [|lia].
    exists m. eapply retries_again; [lia|done..].
  - intros [m H]. inversion H; subst; [lia|].
    match goal with Hgen : generate_dialogue _ _ _ = _ |- _ => rewrite Hgen end.
    rewrite bind_eq.
    match goal with Hc : check_dialogue_sintax _ _ _ _ = _ |- _ => rewrite Hc end.
    apply (IH (S n)); [lia|]. by eexists.
Qed.

(** A generation completes exactly as lines 110 to 123 say. *)
Lemma candidate_generation i combination w d v w' :
  candidate db py self i combination w = (Ret (d, v), w')
  ↔ ∃ m, generation db py self i combination w m d v w'.
Proof.
  unfold candidate, generation. rewrite bind_eq. unfold lift.
  destruct (create_prompt_from_join_combination_data py self i combination)
    as [prompt|e].
  2: { split; [done|]. by intros (m & ? & ? & ? & ? & ? & ? & ? & _). }
  cbv beta iota.
  remember (retry_loop db self (i + 1) prompt 3) as loop eqn:Hloop.
  rewrite bind_eq.
  destruct (generate_dialogue self prompt w) as [[d0|e] w1] eqn:Hgen.
  2: { split; [done|].
       intros (m & ? & ? & ? & ? & ? & ? & [= <-] & Hgen' & _).
       by rewrite Hgen in Hgen'. }
  rewrite bind_eq. unfold print, emit. cbn [fst snd]. rewrite bind_eq.
  fold (log w1 [Print (LGenerated d0)]).
  destruct (check_dialogue_sintax db self d0 (log w1 [Print (LGenerated d0)]))
    as [[[v0 fb0]|e] w2] eqn:Hc.
  2: { split; [done|].
       intros (m & ? & ? & ? & ? & ? & ? & [= <-] & Hgen' & Hc' & _).
       rewrite Hgen in Hgen'. injection Hgen' as <- <-.
       by rewrite Hc in Hc'. }
  subst loop. rewrite (retry_loop_retries _ _ 3 0) by done.
  split.
  - intros [m Hm]. exists m, prompt, d0, w1, v0, fb0, w2. done.
  - intros (m & ? & ? & ? & ? & ? & ? & [= <-] & Hgen' & Hc' & Hm).
    rewrite Hgen in Hgen'. injection Hgen' as <- <-.
    rewrite Hc in Hc'. injection Hc' as <- <- <-. by exists m.
Qed.

(** What the retry loop adds: one invocation per retry, none of them
    opening a turn; it ends with all three retries made unless the last
    verdict is valid; and its last candidate is the one it was entered
    with or an answer it received. *)
Lemma retries_shape number prompt n d v feedback w m d' v' w' :
  retries db self number prompt n d v feedback w m d' v' w' →
  n ≤ 3 →
  n ≤ m ∧ m ≤ 3
  ∧ (v' = false → m = 3)
  ∧ (validated db self d v w → validated db self d' v' w')
  ∧ ∃ evs,
      trace w' = trace w ++ evs
      ∧ length (invocations evs) = m - n
      ∧ ((d' = d ∧ evs = []) ∨ ∃ text, Invoke text (Ret d') ∈ evs).
Proof.
  induction 1 as [n d fb w|d fb w
                 |n d fb w d1 w1 v1 fb1 w2 m d' v' w' Hlt Hgen Hc Hrest IH];
    intros Hn.
  - split_and!; [done..|]. exists []. rewrite app_nil_r, Nat.sub_diag.
    split_and!; [done..|by left].
  - split_and!; [done..|]. exists []. rewrite app_nil_r.
    split_and!; [done..|by left].
  - destruct IH as (Hle & Hm & Hinv & Hval & evs & Htr & Hlen & Hlast); [lia|].
    split_and!; [lia|done|done|..].
    { intros _. apply Hval.
      exists (prompt +:+ fb), (log w [Print (LRetrying number (n + 1))]),
        w1, w1, fb1.
      auto. }
    destruct (check_dialogue_sintax_quiet db self d1 w1)
      as (_ & evc & Htrc & Hinvc & _).
    rewrite Hc, (generate_dialogue_world _ _ _ _ Hgen) in Htrc.
    cbn [snd fst trace log] in Htrc.
    exists ([Print (LRetrying number (n + 1)); Invoke (prompt +:+ fb) (Ret d1)]
              ++ evc ++ evs).
    rewrite Htr, Htrc, <- !app_assoc. split; [done|].
    rewrite !invocations_app, !length_app, Hinvc, Hlen. simpl.
    split; [lia|]. right.
    destruct Hlast as [[-> ->]|[text Hin]].
    + exists (prompt +:+ fb). apply elem_of_cons. right.
      apply elem_of_cons. by left.
    + exists text. apply elem_of_cons. right. apply elem_of_cons. right.
      apply elem_of_app. by right.
Qed.

(** What a completed generation adds: the first invocation and one per
    retry; its last candidate is an answer it received, and its last
    verdict is the validator's on that candidate. *)
Lemma generation_shape i combination w m d v w' :
  generation db py self i combination w m d v w' →
  m ≤ 3
  ∧ (v = false → m = 3)
  ∧ validated db self d v w'
  ∧ ∃ evs,
      trace w' = trace w ++ evs
      ∧ length (invocations evs) = 1 + m
      ∧ ∃ text, Invoke text (Ret d) ∈ evs.
Proof.
  intros (prompt & d0 & w1 & v0 & fb0 & w2 & Hprompt & Hgen & Hc & Hm).
  destruct (retries_shape _ _ _ _ _ _ _ _ _ _ _ Hm)
    as (_ & Hle & Hinv & Hval & evs & Htr & Hlen & Hlast); [lia|].
  split_and!; [done|done|..].
  { apply Hval. exists prompt, w, w1, (log w1 [Print (LGenerated d0)]), fb0.
    auto. }
  destruct (check_dialogue_sintax_quiet db self d0
              (log w1 [Print (LGenerated d0)]))
    as (_ & evc & Htrc & Hinvc & _).
  rewrite Hc, (generate_dialogue_world _ _ _ _ Hgen) in Htrc.
  cbn [snd fst trace log] in Htrc.
  exists ([Invoke prompt (Ret d0); Print (LGenerated d0)] ++ evc ++ evs).
  rewrite Htr, Htrc, <- !app_assoc. split; [done|].
  rewrite !invocations_app, !length_app, Hinvc, Hlen. simpl.
  split; [lia|].
  destruct Hlast as [[-> ->]|[text Hin]].
  - exists prompt. apply elem_of_cons. by left.
  - exists text. apply elem_of_cons. right. apply elem_of_cons. right.
    apply elem_of_app. by right.
Qed.

(** The run only ever adds to the trace. *)
Lemma for_loop_trace (i : nat) (todo : list Combination)
    (dialogues : list Experiment) (w : World) :
  ∃ evs, trace (for_loop db py self i todo dialogues w).2 = trace w ++ evs.
Proof.
  revert i dialogues w. induction todo as [|c rest IH]; intros i ds w; simpl.
  { exists []. by rewrite app_nil_r. }
  rewrite bind_eq.
  destruct (loop_body_footprint i c w) as (evs1 & Htr1 & _).
  destruct (loop_body db py self i c w) as [[made|e] w1]; simpl in *.
  - match goal with |- context [for_loop db py self (S i) rest ?ds' w1] =>
      destruct (IH (S i) ds' w1) as [evs Htr] end.
    exists (evs1 ++ evs). by rewrite Htr, Htr1, app_assoc.
  - by exists evs1.
Qed.

(** A turn in which every answer of the model carries the turn's number
    never makes an id occur twice in the checkpoint. *)
Lemma loop_body_count i combination (w : World) (id : string)
    (number : nat) (evs : list event) :
  trace (loop_body db py self i combination w).2 = trace w ++ evs →
  labelled number evs →
  count_id id (output_file self)
    (fs (loop_body db py self i combination w).2)
  ≤ count_id id (output_file self) (fs w) `max` 1.
Proof.
  destruct ((dialogue_exists_in_dataset (pretty (i + 1)) (output_file self) w).1)
    as [[]|e] eqn:Hfound.
  - rewrite loop_body_found by done. simpl. lia.
  - rewrite loop_body_not_found by done.
    destruct (candidate_footprint i combination
      (log w [Print (LGenerating (i + 1) (length (join_combination_data self)))]))
      as (Hfs & evc & Htrc & _ & Han & _).
    destruct (candidate db py self i combination _) as [[[d v]|e] w1] eqn:Hc;
      simpl in *; [|rewrite Hfs; lia].
    destruct v; simpl; [|rewrite Hfs; lia].
    intros Htr Hlab. rewrite <- Hfs. apply saved_world_count.
    rewrite (dialogue_exists_fs _ _ w1 w) by done.
    enough (experiment_id d = pretty (i + 1)) as -> by done.
    apply candidate_generation in Hc as [m Hgen].
    destruct (generation_shape _ _ _ _ _ _ _ Hgen)
      as (_ & _ & _ & evc' & Htrc' & _ & text & Hin).
    rewrite Htrc in Htrc'. apply app_inv_head in Htrc'. subst evc'.
    destruct (saved_world_trace d (output_file self) w1) as (l & Hsaved & _).
    rewrite Hsaved, Htrc, <- !app_assoc in Htr. apply app_inv_head in Htr.
    subst evs. simpl in Hlab. apply labelled_app in Hlab as [Hlab _].
    by eapply labelled_elem.
  - rewrite (loop_body_lookup_raise _ _ _ e) by done. simpl. lia.
Qed.

Lemma for_loop_count (i : nat) (todo : list Combination)
    (dialogues : list Experiment) (w : World) (id : string)
    (number : nat) (evs : list event) :
  trace (for_loop db py self i todo dialogues w).2 = trace w ++ evs →
  labelled number evs →
  count_id id (output_file self)
    (fs (for_loop db py self i todo dialogues w).2)
  ≤ count_id id (output_file self) (fs w) `max` 1.
Proof.
  revert i dialogues w number evs.
  induction todo as [|c rest IH]; intros i ds w number evs; simpl; [lia|].
  rewrite bind_eq.
  destruct (loop_body_footprint i c w) as (evs1 & Htr1 & _).
  pose proof (loop_body_count i c w id number evs1 Htr1) as Hstep.
  destruct (loop_body db py self i c w) as [[made|e] w1]; simpl in *.
  - match goal with |- context [for_loop db py self (S i) rest ?ds' w1] =>
      destruct (for_loop_trace (S i) rest ds' w1) as [evs2 Htr2];
      specialize (IH (S i) ds' w1) end.
    intros Htr Hlab. rewrite Htr2, Htr1, <- app_assoc in Htr.
    apply app_inv_head in Htr. subst evs.
    apply labelled_app in Hlab as [Hlab1 Hlab2].
    specialize (IH _ _ Htr2 Hlab2). specialize (Hstep Hlab1). lia.
  - intros Htr Hlab. rewrite Htr1 in Htr. apply app_inv_head in Htr.
    subst evs. by apply Hstep.
Qed.

End Loop.

(** ** The example scenarios of section 8 *)

Example prepare_sql_plain :
  prepare_sql "  SELECT name FROM country;  " = "SELECT name FROM country".
Proof. reflexivity. Qed.

Example prepare_sql_inner_space :
  prepare_sql "SELECT 1 FROM dual ;" = "SELECT 1 FROM dual ".
Proof. reflexivity. Qed.

Example prepare_sql_many_terminators :
  prepare_sql "SELECT 1 FROM dual;;;" = "SELECT 1 FROM dual".
Proof. reflexivity. Qed.

(** Index 0 gives [experiment_id = "1"] and [joins_len = 2]. *)
Example scenario_prompt :
  create_prompt_from_join_combination_data plain_library correcting_generator
    0 country_city
  = str_format plain_library "Experiment {experiment_id}"
      [("experiment_id", "1");
       ("join_str", "country JOIN city ON country.code = city.country");
       ("joins_len", "2");
       ("tables_context",
        "Table: country" +:+ PyStr.nl +:+ "DDL:" +:+ PyStr.nl
          +:+ "DDL not found" +:+ PyStr.nl
          +:+ "Column values examples:" +:+ PyStr.nl +:+ "{}" +:+ PyStr.nl
          +:+ "Table: city" +:+ PyStr.nl +:+ "DDL:" +:+ PyStr.nl
          +:+ "DDL not found" +:+ PyStr.nl
          +:+ "Column values examples:" +:+ PyStr.nl +:+ "{}" +:+ PyStr.nl);
       ("tables_involved", "country, city")].
Proof. by vm_compute. Qed.

(** First run: one invocation, a valid dialogue, experiment 1 written. *)
Example scenario_first_run :
  (create_dialogue_dataset strict_db plain_library sample_generator
     (world_of fresh_fs)).1 = Ret [sample_experiment "1"]
  ∧ length (invocations
              (trace (create_dialogue_dataset strict_db plain_library
                        sample_generator (world_of fresh_fs)).2)) = 1
  ∧ dataset_of "dialogue_dataset.json"
      (fs (create_dialogue_dataset strict_db plain_library sample_generator
             (world_of fresh_fs)).2)
    = Some [model_dump (sample_experiment "1")].
Proof. by vm_compute. Qed.

(** Second run on the checkpoint of the first: skipped, model not asked. *)
Example scenario_second_run :
  (create_dialogue_dataset strict_db plain_library sample_generator
     (world_of resumed_fs)).1 = Ret []
  ∧ trace (create_dialogue_dataset strict_db plain_library sample_generator
             (world_of resumed_fs)).2
    = [Print (LGenerating 1 1);
       Print (LUsingCheckpoint 1 "dialogue_dataset.json")].
Proof. by vm_compute. Qed.

(** The feedback for a dialogue whose first statement is malformed. *)
Example scenario_feedback :
  (check_dialogue_sintax strict_db sample_generator mixed_experiment
     (world_of fresh_fs)).1
  = Ret (false,
         PyStr.nl +:+ PyStr.nl +:+ "# Feedback: " +:+ PyStr.nl
           +:+ "The groundtruths SQLs that you generated gave me the following errors, try again but attention to the errors:"
           +:+ PyStr.nl
           +:+ "Interaction 1, SQL: 'SELECT name FROM contry' - Error: ORA-00942: table or view does not exist"
           +:+ PyStr.nl
           +:+ "Do it again fixing it please and you can maintain the same structure of everything except wrong SQLs.").
Proof. by vm_compute. Qed.

(** Malformed first, corrected on retry 1: two invocations, the second
    with the feedback appended to the prompt, and the result written. *)
Example scenario_retry :
  (create_dialogue_dataset strict_db plain_library correcting_generator
     (world_of fresh_fs)).1 = Ret [sample_experiment "1"]
  ∧ (∃ prompt feedback,
       create_prompt_from_join_combination_data plain_library
         correcting_generator 0 country_city = Ret prompt
       ∧ (check_dialogue_sintax strict_db correcting_generator
            mixed_experiment (world_of fresh_fs)).1 = Ret (false, feedback)
       ∧ invocations
           (trace (create_dialogue_dataset strict_db plain_library
                     correcting_generator (world_of fresh_fs)).2)
         = [prompt; prompt +:+ feedback])
  ∧ dataset_of "dialogue_dataset.json"
      (fs (create_dialogue_dataset strict_db plain_library
             correcting_generator (world_of fresh_fs)).2)
    = Some [model_dump (sample_experiment "1")].
Proof.
  split; [by vm_compute|]. split; [|by vm_compute].
  eexists _, _. split; [by vm_compute|]. split; by vm_compute.
Qed.

(** Never valid: four invocations, the last candidate returned, nothing
    written. *)
Example scenario_exhausted :
  (create_dialogue_dataset strict_db plain_library hopeless_generator
     (world_of fresh_fs)).1 = Ret [mixed_experiment]
  ∧ length (invocations
              (trace (create_dialogue_dataset strict_db plain_library
                        hopeless_generator (world_of fresh_fs)).2)) = 4
  ∧ fs (create_dialogue_dataset strict_db plain_library hopeless_generator
          (world_of fresh_fs)).2 = fresh_fs.
Proof. by vm_compute. Qed.

(** * The claims *)

(** ** C6: a save followed by a lookup *)




(** It fails as well where the write starts and does not finish.  The
    checkpoint holds experiment 7 and a string with a lone surrogate:
    [open(path, 'w')] truncates the file, [json.dump] raises on the string,
    line 271 swallows the exception, and what is left does not parse: the
    saved experiment is not found, and experiment 7 no longer either. *)
Example save_truncates_on_surrogate :
  regular "dialogue_dataset.json" lone_fs = true
  ∧ (dialogue_exists_in_dataset "7" "dialogue_dataset.json"
       (world_of lone_fs)).1 = Ret true
  ∧ save_dialogue_to_file (sample_experiment "1") "dialogue_dataset.json"
      (world_of lone_fs)
    = (Ret tt,
       {| fs := with_checkpoint Garbage;
          trace := [Print (LSaving (model_dump (sample_experiment "1")));
                    Print (LSaveError UnicodeEncodeError)] |})
  ∧ (dialogue_exists_in_dataset "1" "dialogue_dataset.json"
       (save_dialogue_to_file (sample_experiment "1") "dialogue_dataset.json"
          (world_of lone_fs)).2).1 = Ret false
  ∧ (dialogue_exists_in_dataset "7" "dialogue_dataset.json"
       (save_dialogue_to_file (sample_experiment "1") "dialogue_dataset.json"
          (world_of lone_fs)).2).1 = Ret false.
Proof. by vm_compute. Qed.

(** The same on a device that gives out during the write. *)
Example save_truncates_on_full_device :
  nodes (fs (save_dialogue_to_file (sample_experiment "2")
               "dialogue_dataset.json" (world_of full_fs)).2)
    !! "dialogue_dataset.json" = Some Garbage
  ∧ (dialogue_exists_in_dataset "1" "dialogue_dataset.json"
       (world_of full_fs)).1 = Ret true
  ∧ (dialogue_exists_in_dataset "1" "dialogue_dataset.json"
       (save_dialogue_to_file (sample_experiment "2") "dialogue_dataset.json"
          (world_of full_fs)).2).1 = Ret false.
Proof. by vm_compute. Qed.

(** ** C2: the validator's verdict *)

(** C2, as amended.  When the settings load and the connection and cursor
    open and close without error, every interaction's statement is sent, in
    order and whatever the earlier answers; [check_dialogue_sintax] returns
    [(true, "")] exactly when no statement failed; otherwise it returns
    [(false, feedback)] where [feedback] is the preamble, the error lines
    joined by newlines and the trailer, is not empty, and contains the line
    ["Interaction <id>, SQL: '<sql>' - Error: <cause>"] of every failing
    interaction. *)
Theorem check_dialogue_sintax_verdict (db : Database) (self : DialogueGenerator)
    (dialogue : Experiment) (w : World) (host port user pass service : json) :
  settings_in (database_connection self) (fs w) host port user pass service →
  reliable db →
  ∃ answers,
    length answers = length (interactions dialogue)
    ∧ statements (trace (check_dialogue_sintax db self dialogue w).2)
      = statements (trace w)
        ++ zip (statement_of <$> interactions dialogue) answers
    ∧ let sql_errors := failures (zip (interactions dialogue) answers) in
      ((check_dialogue_sintax db self dialogue w).1 = Ret (true, "")
       ↔ sql_errors = [])
      ∧ (sql_errors ≠ [] →
         (check_dialogue_sintax db self dialogue w).1
         = Ret (false, feedback_of sql_errors)
         ∧ feedback_of sql_errors ≠ ""
         ∧ ∀ it cause,
             (it, Some cause) ∈ zip (interactions dialogue) answers →
             occurs_in (error_line it cause) (feedback_of sql_errors)).
Proof.
  intros Hset Hrel.
  unfold check_dialogue_sintax, bind. rewrite (load_settings_ok _ _ _ _ _ _ _ Hset).
  unfold guarded, bind, ask, emit; simpl.
  destruct (Hrel (trace w)) as (-> & _); simpl.
  destruct (Hrel (trace w ++ [DbConnect user pass host port service None]))
    as (_ & -> & _); simpl.
  match goal with |- context [check_interactions db ?its ?e ?w1] =>
    destruct (check_interactions_spec db its e w1) as (answers & Hlen & Hret & Hst);
    destruct (check_interactions db its e w1) as [r w3] end.
  simpl in Hret, Hst. subst r. simpl.
  destruct (Hrel (trace w3)) as (_ & _ & -> & _); simpl.
  destruct (Hrel (trace w3 ++ [DbCloseCursor None])) as (_ & _ & _ & ->); simpl.
  exists answers. split; [done|].
  rewrite !statements_app in Hst. simpl in Hst. rewrite !app_nil_r in Hst.
  destruct (failures (zip (interactions dialogue) answers)) as [|l ls] eqn:Herrs;
    simpl; rewrite !statements_app, Hst; simpl; rewrite !app_nil_r.
  - split; [done|]. split; [done|]. by intros [].
  - split; [done|]. split; [done|]. intros _. split; [done|].
    destruct (feedback_of_starts (l :: ls)) as [rest Hrest].
    split; [by rewrite Hrest|].
    intros it cause Hin. apply feedback_of_occurs. rewrite <- Herrs.
    by apply failures_elem.
Qed.

(** C2 on the second example scenario of section 8: one malformed
    statement among two. *)
Lemma check_dialogue_sintax_verdict_witness :
  ∃ answers,
    length answers = length (interactions mixed_experiment)
    ∧ statements (trace (check_dialogue_sintax strict_db sample_generator
                           mixed_experiment (world_of fresh_fs)).2)
      = statements (trace (world_of fresh_fs))
        ++ zip (statement_of <$> interactions mixed_experiment) answers
    ∧ let sql_errors :=
        failures (zip (interactions mixed_experiment) answers) in
      ((check_dialogue_sintax strict_db sample_generator mixed_experiment
          (world_of fresh_fs)).1 = Ret (true, "")
       ↔ sql_errors = [])
      ∧ (sql_errors ≠ [] →
         (check_dialogue_sintax strict_db sample_generator mixed_experiment
            (world_of fresh_fs)).1
         = Ret (false, feedback_of sql_errors)
         ∧ feedback_of sql_errors ≠ ""
         ∧ ∀ it cause,
             (it, Some cause) ∈ zip (interactions mixed_experiment) answers →
             occurs_in (error_line it cause) (feedback_of sql_errors)).
Proof.
  apply (check_dialogue_sintax_verdict strict_db sample_generator
           mixed_experiment (world_of fresh_fs)
           (JStr "localhost") (JNum 1521) (JStr "mondial") (JStr "secret")
           (JStr "XEPDB1")).
  - eexists. split; [reflexivity|]. by vm_compute.
  - intros tr. by vm_compute.
Defined.

(** C2 as stated fails when the connection cannot be opened: no statement
    is sent, so no per-statement error is collected, yet the result is not
    [(true, "")], and the feedback is the connection message of line 194,
    which is not a preamble, error lines and a trailer. *)
Lemma check_dialogue_sintax_verdict_counterexample :
  (check_dialogue_sintax refusing_db sample_generator mixed_experiment
     (world_of fresh_fs)).1
  = Ret (false, "Error connecting to the database: ORA-12541: TNS:no listener")
  ∧ statements (trace (check_dialogue_sintax refusing_db sample_generator
                         mixed_experiment (world_of fresh_fs)).2) = []
  ∧ ∀ sql_errors,
      feedback_of sql_errors
      ≠ "Error connecting to the database: ORA-12541: TNS:no listener".
Proof.
  split; [by vm_compute|]. split; [by vm_compute|].
  intros errs. by destruct (feedback_of_starts errs) as [rest ->].
Qed.

(** ** C7: a connection that cannot be opened *)

(** C7.  When the settings load and [oracledb.connect] raises,
    [check_dialogue_sintax] returns [(false, m)] with [m] the text
    ["Error connecting to the database: "] followed by [str(e)]; the trace
    gains the refused connection and the printed message only, so no
    statement is sent and no per-statement result exists.  The same holds
    when the connection opens and [connection.cursor()] raises. *)
Theorem connection_failure_verdict (db : Database) (self : DialogueGenerator)
    (dialogue : Experiment) (w : World) (host port user pass service : json)
    (cause : string) :
  settings_in (database_connection self) (fs w) host port user pass service →
  (connect db (trace w) user pass host port service = Some cause →
   check_dialogue_sintax db self dialogue w
   = (Ret (false, "Error connecting to the database: " +:+ cause),
      log w [DbConnect user pass host port service (Some cause);
             Print (LText ("Error connecting to the database: " +:+ cause))])
   ∧ statements (trace (check_dialogue_sintax db self dialogue w).2)
     = statements (trace w))
  ∧ (connect db (trace w) user pass host port service = None →
     cursor db (trace w ++ [DbConnect user pass host port service None])
     = Some cause →
     check_dialogue_sintax db self dialogue w
     = (Ret (false, "Error connecting to the database: " +:+ cause),
        log w [DbConnect user pass host port service None;
               DbCursor (Some cause);
               Print (LText ("Error connecting to the database: " +:+ cause))])
     ∧ statements (trace (check_dialogue_sintax db self dialogue w).2)
       = statements (trace w)).
Proof.
  intros Hset.
  assert (∀ r evs, statements evs = [] →
    check_dialogue_sintax db self dialogue w = (r, log w evs) →
    check_dialogue_sintax db self dialogue w = (r, log w evs)
    ∧ statements (trace (check_dialogue_sintax db self dialogue w).2)
      = statements (trace w)) as Hquiet.
  { intros r evs Hevs Heq. split; [done|]. rewrite Heq. simpl.
    by rewrite statements_app, Hevs, app_nil_r. }
  split.
  - intros Hcon. apply Hquiet; [done|].
    unfold check_dialogue_sintax. rewrite bind_eq.
    rewrite (load_settings_ok _ _ _ _ _ _ _ Hset).
    unfold guarded, connection_error, bind, ask, emit, print, emit, ret, log;
      simpl.
    rewrite Hcon; simpl. by rewrite <- app_assoc.
  - intros Hcon Hcur. apply Hquiet; [done|].
    unfold check_dialogue_sintax. rewrite bind_eq.
    rewrite (load_settings_ok _ _ _ _ _ _ _ Hset).
    unfold guarded, connection_error, bind, ask, emit, print, emit, ret, log;
      simpl.
    rewrite Hcon; simpl. rewrite Hcur; simpl. by rewrite <- !app_assoc.
Qed.

(** C7 at a database nobody listens for. *)
Lemma connection_failure_verdict_witness :
  check_dialogue_sintax refusing_db sample_generator mixed_experiment
    (world_of fresh_fs)
  = (Ret (false, "Error connecting to the database: "
                   +:+ "ORA-12541: TNS:no listener"),
     log (world_of fresh_fs)
       [DbConnect (JStr "mondial") (JStr "secret") (JStr "localhost")
          (JNum 1521) (JStr "XEPDB1") (Some "ORA-12541: TNS:no listener");
        Print (LText ("Error connecting to the database: "
                        +:+ "ORA-12541: TNS:no listener"))])
  ∧ statements (trace (check_dialogue_sintax refusing_db sample_generator
                         mixed_experiment (world_of fresh_fs)).2)
    = statements (trace (world_of fresh_fs)).
Proof.
  destruct (connection_failure_verdict refusing_db sample_generator
              mixed_experiment (world_of fresh_fs)
              (JStr "localhost") (JNum 1521) (JStr "mondial") (JStr "secret")
              (JStr "XEPDB1") "ORA-12541: TNS:no listener") as [Hconnect _].
  - eexists. split; [reflexivity|]. by vm_compute.
  - apply Hconnect. reflexivity.
Defined.

(** ** C9: unusable connection settings *)

(** C9.  If the settings file is missing, is not valid JSON or lacks one of
    the five keys, [check_dialogue_sintax] raises to its caller
    ([FileNotFoundError], [JSONDecodeError], [KeyError] of a missing key)
    instead of returning a verdict, and nothing has happened yet: the world
    is unchanged, the database was not contacted. *)
Theorem broken_settings_raise (db : Database) (self : DialogueGenerator)
    (dialogue : Experiment) (w : World) :
  settings_broken (database_connection self) (fs w) →
  ∃ e,
    check_dialogue_sintax db self dialogue w = (Raise e, w)
    ∧ (nodes (fs w) !! database_connection self = None →
       e = FileNotFoundError)
    ∧ (nodes (fs w) !! database_connection self = Some Garbage →
       e = JSONDecodeError)
    ∧ (∀ fields,
         nodes (fs w) !! database_connection self = Some (Doc (JObj fields)) →
         ∃ key, e = KeyError key ∧ key ∈ settings_keys
                ∧ Dict.get key fields = None).
Proof.
  unfold settings_broken, check_dialogue_sintax, load_settings, bind, read_fs,
    lift, load_json; simpl.
  intros [Hn|[Hn|(fields & key & Hn & Hkey & Hget)]]; rewrite Hn; simpl.
  - by exists FileNotFoundError.
  - by exists JSONDecodeError.
  - unfold settings_keys in Hkey.
    assert (∀ k, Dict.get k fields = None → k ∈ settings_keys →
      ∃ e, (Raise e : outcome (bool * string), w) = (Raise (KeyError k), w)
        ∧ (Some (Doc (JObj fields)) = None → e = FileNotFoundError)
        ∧ (Some (Doc (JObj fields)) = Some Garbage → e = JSONDecodeError)
        ∧ (∀ fields', Some (Doc (JObj fields)) = Some (Doc (JObj fields')) →
           ∃ key, e = KeyError key ∧ key ∈ settings_keys
                  ∧ Dict.get key fields' = None)) as Hraise.
    { intros k Hk Hin. exists (KeyError k). split_and!; try done.
      intros ? [= <-]. by exists k. }
    destruct (Dict.get "DB_HOST" fields) as [host|] eqn:H1; simpl.
    2: { destruct (Hraise "DB_HOST" H1) as (e & [= <-] & He);
           [apply list_elem_of_In; simpl; tauto|by eexists]. }
    destruct (Dict.get "DB_PORT" fields) as [port|] eqn:H2; simpl.
    2: { destruct (Hraise "DB_PORT" H2) as (e & [= <-] & He);
           [apply list_elem_of_In; simpl; tauto|by eexists]. }
    destruct (Dict.get "DB_USER_NAME" fields) as [user|] eqn:H3; simpl.
    2: { destruct (Hraise "DB_USER_NAME" H3) as (e & [= <-] & He);
           [apply list_elem_of_In; simpl; tauto|by eexists]. }
    destruct (Dict.get "DB_PASS" fields) as [pass|] eqn:H4; simpl.
    2: { destruct (Hraise "DB_PASS" H4) as (e & [= <-] & He);
           [apply list_elem_of_In; simpl; tauto|by eexists]. }
    destruct (Dict.get "SERVICE_NAME" fields) as [service|] eqn:H5; simpl.
    2: { destruct (Hraise "SERVICE_NAME" H5) as (e & [= <-] & He);
           [apply list_elem_of_In; simpl; tauto|by eexists]. }
    exfalso.
    repeat (apply elem_of_cons in Hkey as [->|Hkey]; [congruence|]).
    by apply elem_of_nil in Hkey.
Qed.

(** C9 at a settings file without [DB_PASS]. *)
Lemma broken_settings_raise_witness :
  ∃ e,
    check_dialogue_sintax steady_db sample_generator mixed_experiment
      (world_of no_password_fs)
    = (Raise e, world_of no_password_fs)
    ∧ (nodes (fs (world_of no_password_fs))
         !! database_connection sample_generator = None →
       e = FileNotFoundError)
    ∧ (nodes (fs (world_of no_password_fs))
         !! database_connection sample_generator = Some Garbage →
       e = JSONDecodeError)
    ∧ (∀ fields,
         nodes (fs (world_of no_password_fs))
           !! database_connection sample_generator = Some (Doc (JObj fields)) →
         ∃ key, e = KeyError key ∧ key ∈ settings_keys
                ∧ Dict.get key fields = None).
Proof.
  apply (broken_settings_raise steady_db sample_generator mixed_experiment
           (world_of no_password_fs)).
  right. right. eexists _, "DB_PASS". split; [reflexivity|].
  split; [|reflexivity]. apply list_elem_of_In. simpl. tauto.
Defined.

(** ** C5: the statement sent to the database *)

(** C5, as amended.  The statements the validator sends are, in order,
    [prepare_sql] of each interaction's [golden_sql]; and [prepare_sql g] is
    [g] stripped of surrounding whitespace with every trailing [;] removed:
    the stripped text is the statement followed by some number [n] of
    terminators, the statement itself does not end in one, and it is the
    single-terminator removal of the specification exactly when [n] is at
    most one. *)
Theorem statements_are_prepared (db : Database) (todo : list Interaction)
    (sql_errors : list string) (w : World) (g : string) :
  (statements (trace (check_interactions db todo sql_errors w).2)).*1
  = (statements (trace w)).*1
    ++ ((λ it, prepare_sql (golden_sql (ground_truths it))) <$> todo)
  ∧ ∃ n,
      PyStr.strip g = prepare_sql g +:+ PyStr.repeat_char ";" n
      ∧ PyStr.last_char (prepare_sql g) ≠ Some ";"%char
      ∧ (n ≤ 1 ↔ prepare_sql g = spec_prepare_sql g).
Proof.
  split.
  - destruct (check_interactions_spec db todo sql_errors w)
      as (answers & Hlen & _ & ->).
    rewrite fmap_app. f_equal. rewrite fst_zip; [done|].
    rewrite length_fmap. lia.
  - unfold prepare_sql, spec_prepare_sql.
    destruct (rstrip_semicolons_split (PyStr.strip g)) as [n Hn].
    pose proof (rstrip_semicolons_last (PyStr.strip g)) as Hlast.
    exists n. split; [done|]. split; [done|].
    revert Hn Hlast. generalize (PyStr.rstrip_semicolons (PyStr.strip g)).
    intros r -> Hlast. split.
    + intros Hle. destruct n as [|[|n]]; [| |lia].
      * simpl. rewrite append_nil_r. by rewrite spec_drop_terminator_keeps.
      * by rewrite spec_drop_terminator_snoc.
    + intros Heq. destruct n as [|[|n]]; [lia..|]. exfalso.
      rewrite repeat_char_snoc, <- append_assoc, spec_drop_terminator_snoc in Heq.
      by apply append_eq_self in Heq.
Qed.

(** C5 as stated fails on a statement that ends in two terminators: the
    validator sends it with neither, where removing a single one would
    leave the first. *)
Lemma statements_are_prepared_counterexample :
  (statements (trace (check_interactions steady_db
      [sample_interaction "1" "SELECT name FROM country;;"] []
      (world_of fresh_fs)).2)).*1
  = ["SELECT name FROM country"]
  ∧ spec_prepare_sql "SELECT name FROM country;;" = "SELECT name FROM country;".
Proof. by vm_compute. Qed.

(** ** C8: the prompt builder and its fallbacks *)

(** C8, where the code departs from it.  A table without an entry in the
    example-values lookup makes [create_prompt_from_join_combination_data]
    raise [AttributeError], whatever the template: the fallback of line 73
    is a [str], and line 77 calls [.items()] on it. *)
Theorem missing_examples_raise (py : Library) (self : DialogueGenerator)
    (i : nat) (combination : Combination) :
  (∃ table, table ∈ tables combination
            ∧ table_column_values_hashmap self !! table = None) →
  create_prompt_from_join_combination_data py self i combination
  = Raise AttributeError.
Proof.
  intros Hmiss. unfold create_prompt_from_join_combination_data.
  by rewrite (tables_context_loop_missing py self _ _ Hmiss).
Qed.

(** C8 at the first example scenario, with no examples for [city]. *)
Lemma missing_examples_raise_witness :
  create_prompt_from_join_combination_data plain_library no_city_examples
    0 country_city
  = Raise AttributeError.
Proof.
  apply (missing_examples_raise plain_library no_city_examples 0 country_city).
  exists "city". split; [|reflexivity].
  apply list_elem_of_In. simpl. tauto.
Defined.

(** ** C3: the retry bound *)

(** C3.  One turn of the loop, skipped or not, completed or interrupted by
    an exception, adds at most four model invocations to the trace, and at
    least one when it makes an experiment.
    A retry is made only from an invalid verdict.  When the first
    validation returns valid the generation ends there, with the one
    invocation made.  And in general a generation completes exactly as
    lines 110 to 123 word it ([generation], [retries]): the prompt is sent
    once and the answer validated; then, as long as the most recent verdict
    is invalid and fewer than three retries were made, the prompt is sent
    again with the feedback of that verdict and the answer validated.  With
    [m] retries made, [m] is at most three, the model was asked [1 + m]
    times, and a generation that ends invalid made all three. *)
Theorem retry_bound (db : Database) (py : Library) (self : DialogueGenerator)
    (i : nat) (combination : Combination) (w : World) :
  (∃ evs,
     trace (loop_body db py self i combination w).2 = trace w ++ evs
     ∧ length (invocations evs) ≤ 1 + 3
     ∧ (∀ d, (loop_body db py self i combination w).1 = Ret (Some d) →
             1 ≤ length (invocations evs)))
  ∧ (∀ prompt d0 w1 feedback0 w2,
       create_prompt_from_join_combination_data py self i combination
       = Ret prompt →
       generate_dialogue self prompt w = (Ret d0, w1) →
       check_dialogue_sintax db self d0 (log w1 [Print (LGenerated d0)])
       = (Ret (true, feedback0), w2) →
       candidate db py self i combination w = (Ret (d0, true), w2)
       ∧ invocations (trace w2) = invocations (trace w) ++ [prompt])
  ∧ (∀ d v w',
       candidate db py self i combination w = (Ret (d, v), w')
       ↔ ∃ m, generation db py self i combination w m d v w')
  ∧ (∀ m d v w',
       generation db py self i combination w m d v w' →
       m ≤ 3
       ∧ (v = false → m = 3)
       ∧ ∃ evs, trace w' = trace w ++ evs
                ∧ length (invocations evs) = 1 + m).
Proof.
  split_and!.
  - destruct (loop_body_footprint db py self i combination w)
      as (evs & Htr & Hlen & _ & Hone).
    exists evs. split_and!; [done..|]. intros d Hd. by rewrite Hd in Hone.
  - intros prompt d0 w1 fb0 w2 Hprompt Hgen Hc. split.
    + apply candidate_generation.
      exists 0, prompt, d0, w1, true, fb0, w2. split_and!; [done..|].
      constructor.
    + destruct (check_dialogue_sintax_quiet db self d0
                  (log w1 [Print (LGenerated d0)]))
        as (_ & evc & Htrc & Hinvc & _).
      rewrite Hc, (generate_dialogue_world _ _ _ _ _ Hgen) in Htrc.
      simpl in Htrc. rewrite Htrc, !invocations_app, Hinvc. simpl.
      by rewrite !app_nil_r.
  - intros d v w'. apply candidate_generation.
  - intros m d v w' Hgen.
    destruct (generation_shape db py self _ _ _ _ _ _ _ Hgen)
      as (Hm & Hinv & _ & evs & Htr & Hlen & _).
    split_and!; [done..|]. by exists evs.
Qed.

(** C3 on the third example scenario of section 8: the first statement is
    malformed, the answer to the retry is valid, and the generation ends
    after one retry. *)
Lemma retry_bound_witness :
  ∃ m,
    generation strict_db plain_library correcting_generator 0 country_city
      (world_of fresh_fs) m (sample_experiment "1") true
      (candidate strict_db plain_library correcting_generator 0 country_city
         (world_of fresh_fs)).2
    ∧ m = 1.
Proof.
  destruct (retry_bound strict_db plain_library correcting_generator 0
              country_city (world_of fresh_fs)) as (_ & _ & Hiff & Hshape).
  destruct (proj1 (Hiff (sample_experiment "1") true
                     (candidate strict_db plain_library correcting_generator 0
                        country_city (world_of fresh_fs)).2))
    as [m Hm]; [by vm_compute|].
  exists m. split; [exact Hm|].
  destruct (Hshape m _ _ _ Hm) as (_ & _ & evs & Htr & Hlen).
  simpl in Htr. subst evs. vm_compute in Hlen. by injection Hlen as <-.
Defined.

(** ** C4: what happens to the last candidate *)




(** ** C10: the returned list *)

(** C10.  When [create_dialogue_dataset] returns, its run is a sequence of
    turns, one per combination in input order, each either skipped because
    the lookup found its id at that moment or generated because it did not;
    the returned list is the experiments of the generated turns, in that
    order, one each, and nothing for a skipped turn.  Its length is the
    number of combinations minus the number of skipped ones, which is also
    the number of skip lines printed. *)
Theorem returned_list (db : Database) (py : Library) (self : DialogueGenerator)
    (w w' : World) (dialogues : list Experiment) :
  create_dialogue_dataset db py self w = (Ret dialogues, w') →
  ∃ made evs,
    turns db py self 0 (join_combination_data self) w made w'
    ∧ length made = length (join_combination_data self)
    ∧ dialogues = omap id made
    ∧ trace w' = trace w ++ evs
    ∧ skips evs = skipped_numbers 0 made
    ∧ length dialogues
      = length (join_combination_data self) - length (skips evs).
Proof.
  intros (made & evs & Hturns & Hout & Htr & Hsk)%for_loop_spec.
  pose proof (turns_length _ _ _ _ _ _ _ _ Hturns) as Hlen.
  exists made, evs. split_and!; [done..|].
  rewrite Hout, Hsk, <- Hlen, <- (skipped_numbers_length 0 made). simpl. lia.
Qed.

(** C10 on a resumed run: the first combination is in the checkpoint, the
    second is generated. *)
Lemma returned_list_witness :
  ∃ made evs,
    turns steady_db plain_library resuming_generator 0
      (join_combination_data resuming_generator) (world_of resumed_fs) made
      (create_dialogue_dataset steady_db plain_library resuming_generator
         (world_of resumed_fs)).2
    ∧ length made = length (join_combination_data resuming_generator)
    ∧ [sample_experiment "2"] = omap id made
    ∧ trace (create_dialogue_dataset steady_db plain_library resuming_generator
               (world_of resumed_fs)).2
      = trace (world_of resumed_fs) ++ evs
    ∧ skips evs = skipped_numbers 0 made
    ∧ length [sample_experiment "2"]
      = length (join_combination_data resuming_generator) - length (skips evs).
Proof.
  apply (returned_list steady_db plain_library resuming_generator
           (world_of resumed_fs)
           (create_dialogue_dataset steady_db plain_library resuming_generator
              (world_of resumed_fs)).2
           [sample_experiment "2"]).
  by vm_compute.
Defined.

(** ** C1: skipping what is checkpointed *)

(** C1, as amended.  At its turn, combination [i] is skipped exactly when
    [dialogue_exists_in_dataset(str(i + 1), output_file)] answers true; a
    skipped turn invokes the model not at all and leaves the file system as
    it was; the lookup answers true only if the checkpoint holds an
    experiment with that id, and on a [regular] checkpoint exactly then.
    Provided every experiment the model returned during a run carries the
    number of the turn it was returned in ([labelled], read off the events
    of that run), one run of the loop, and a second run after it, leave no
    id with more occurrences in the checkpoint than it had before or one. *)
Theorem checkpoint_idempotence (db : Database) (py : Library)
    (self : DialogueGenerator) :
  (∀ i combination w,
     ((loop_body db py self i combination w).1 = Ret None
      ↔ (dialogue_exists_in_dataset (pretty (i + 1)) (output_file self) w).1
        = Ret true)
     ∧ ((loop_body db py self i combination w).1 = Ret None →
        invocations (trace (loop_body db py self i combination w).2)
        = invocations (trace w)
        ∧ fs (loop_body db py self i combination w).2 = fs w)
     ∧ ((dialogue_exists_in_dataset (pretty (i + 1)) (output_file self) w).1
        = Ret true →
        checkpointed (pretty (i + 1)) (output_file self) (fs w) = true)
     ∧ (regular (output_file self) (fs w) = true →
        (dialogue_exists_in_dataset (pretty (i + 1)) (output_file self) w).1
        = Ret (checkpointed (pretty (i + 1)) (output_file self) (fs w))))
  ∧ (∀ w id first second,
       trace (create_dialogue_dataset db py self w).2 = trace w ++ first →
       labelled 0 first →
       count_id id (output_file self)
         (fs (create_dialogue_dataset db py self w).2)
       ≤ count_id id (output_file self) (fs w) `max` 1
       ∧ (trace (create_dialogue_dataset db py self
                   (create_dialogue_dataset db py self w).2).2
          = trace (create_dialogue_dataset db py self w).2 ++ second →
          labelled 0 second →
          count_id id (output_file self)
            (fs (create_dialogue_dataset db py self
                   (create_dialogue_dataset db py self w).2).2)
          ≤ count_id id (output_file self) (fs w) `max` 1)).
Proof.
  split.
  - intros i combination w. split_and!.
    + split; [by intros [_ ?]%loop_body_fs_found|].
      intros Hfound. by rewrite loop_body_found.
    + intros Hskip. split; [|by apply loop_body_fs_found].
      destruct (loop_body_footprint db py self i combination w)
        as (evs & -> & _ & _ & Hinv).
      rewrite Hskip in Hinv. by rewrite invocations_app, Hinv, app_nil_r.
    + apply dialogue_exists_true.
    + apply dialogue_exists_regular.
  - intros w id first second Htr1 Hlab1.
    pose proof (for_loop_count db py self 0 (join_combination_data self) []
                  w id 0 first Htr1 Hlab1) as Hrun1.
    split; [exact Hrun1|]. intros Htr2 Hlab2.
    pose proof (for_loop_count db py self 0 (join_combination_data self) []
                  _ id 0 second Htr2 Hlab2) as Hrun2.
    unfold create_dialogue_dataset in *. lia.
Qed.

(** C1 on two combinations and a model that labels its answers as asked: a
    first run writes experiments 1 and 2, a second run finds both; the
    checkpoint holds each once. *)
Lemma checkpoint_idempotence_witness :
  count_id "2" "dialogue_dataset.json"
    (fs (create_dialogue_dataset steady_db plain_library echoing_generator
           (world_of fresh_fs)).2)
  ≤ count_id "2" "dialogue_dataset.json" (fs (world_of fresh_fs)) `max` 1
  ∧ count_id "2" "dialogue_dataset.json"
      (fs (create_dialogue_dataset steady_db plain_library echoing_generator
             (create_dialogue_dataset steady_db plain_library echoing_generator
                (world_of fresh_fs)).2).2)
    ≤ count_id "2" "dialogue_dataset.json" (fs (world_of fresh_fs)) `max` 1.
Proof.
  destruct (checkpoint_idempotence steady_db plain_library echoing_generator)
    as [_ Hruns].
  destruct (Hruns (world_of fresh_fs) "2"
              (trace (create_dialogue_dataset steady_db plain_library
                        echoing_generator (world_of fresh_fs)).2)
              [Print (LGenerating 1 2);
               Print (LUsingCheckpoint 1 "dialogue_dataset.json");
               Print (LGenerating 2 2);
               Print (LUsingCheckpoint 2 "dialogue_dataset.json")])
    as [Hfirst Hsecond].
  - reflexivity.
  - by vm_compute.
  - split; [exact Hfirst|]. apply Hsecond.
    + by vm_compute.
    + exact I.
Defined.

(** C1 as stated fails when the model mislabels an answer.  The checkpoint
    holds experiment 1; combination 1 is skipped; combination 2 is not in
    the checkpoint, the model is asked and labels its answer 1 again, the
    SQL is valid, and the save appends it: two experiments share id 1.  The
    second run asks the model again for combination 2 and appends a
    third. *)
Lemma checkpoint_idempotence_counterexample :
  count_id "1" "dialogue_dataset.json" (fs (world_of resumed_fs)) = 1
  ∧ count_id "1" "dialogue_dataset.json"
      (fs (create_dialogue_dataset steady_db plain_library
             mislabelling_generator (world_of resumed_fs)).2) = 2
  ∧ count_id "1" "dialogue_dataset.json"
      (fs (create_dialogue_dataset steady_db plain_library
             mislabelling_generator
             (create_dialogue_dataset steady_db plain_library
                mislabelling_generator (world_of resumed_fs)).2).2) = 3
  ∧ skips (trace (create_dialogue_dataset steady_db plain_library
                    mislabelling_generator
                    (create_dialogue_dataset steady_db plain_library
                       mislabelling_generator (world_of resumed_fs)).2).2)
    = [1; 1]
  ∧ length (invocations
              (trace (create_dialogue_dataset steady_db plain_library
                        mislabelling_generator
                        (create_dialogue_dataset steady_db plain_library
                           mislabelling_generator
                           (world_of resumed_fs)).2).2))
    = 2.
Proof. by vm_compute. Qed.

(** * Further properties of the checkpoint store *)




(** X1.  Without a usable checkpoint the lookup answers false and never
    raises: no file at the path, a file that is not JSON, or a document in
    which ["dataset" in existing_data] is false.  The world is untouched. *)
Theorem lookup_without_checkpoint (id path : string) (w : World) :
  nodes (fs w) !! path = None
  ∨ nodes (fs w) !! path = Some Garbage
  ∨ (∃ v, nodes (fs w) !! path = Some (Doc v)
          ∧ Json.contains "dataset" v = Ret false) →
  dialogue_exists_in_dataset id path w = (Ret false, w).
Proof.
  rewrite dialogue_exists_eq. intros H. f_equal. unfold_store.
  destruct H as [->|[->|(v & -> & Hc)]]; simpl; [done..|].
  by rewrite Hc.
Qed.

(** X1 at a file that is not JSON. *)
Lemma lookup_without_checkpoint_witness :
  dialogue_exists_in_dataset "1" "dialogue_dataset.json"
    (world_of garbage_fs)
  = (Ret false, world_of garbage_fs).
Proof.
  apply (lookup_without_checkpoint "1" "dialogue_dataset.json"
           (world_of garbage_fs)).
  right. left. reflexivity.
Defined.

(** X2.  A checkpoint that cannot be opened for reading, or whose document
    is [null], a boolean or a number, makes the lookup raise ([OSError],
    [TypeError]): neither is among the exceptions line 226 catches.  The
    save meets the same exception, swallows it at line 271, and leaves the
    file system as it was. *)
Theorem unusable_checkpoint (e : Experiment) (id path : string) (w : World)
    (ex : exn) :
  (nodes (fs w) !! path = Some Unreadable ∧ ex = OSError)
  ∨ (∃ v, nodes (fs w) !! path = Some (Doc v)
          ∧ match v with JNull | JBool _ | JNum _ => True | _ => False end
          ∧ ex = TypeError) →
  dialogue_exists_in_dataset id path w = (Raise ex, w)
  ∧ save_dialogue_to_file e path w
    = (Ret tt, log w [Print (LSaving (model_dump e)); Print (LSaveError ex)]).
Proof.
  intros H. rewrite dialogue_exists_eq, save_dialogue_to_file_eq.
  unfold saved_world, next_document, current_document. unfold_store.
  destruct H as [[-> ->]|(v & -> & Hv & ->)]; simpl; [done|].
  by destruct v.
Qed.

(** X2 at a checkpoint that holds the number 7. *)
Lemma unusable_checkpoint_witness :
  dialogue_exists_in_dataset "1" "dialogue_dataset.json" (world_of number_fs)
  = (Raise TypeError, world_of number_fs)
  ∧ save_dialogue_to_file (sample_experiment "1") "dialogue_dataset.json"
      (world_of number_fs)
    = (Ret tt,
       log (world_of number_fs)
         [Print (LSaving (model_dump (sample_experiment "1")));
          Print (LSaveError TypeError)]).
Proof.
  apply (unusable_checkpoint (sample_experiment "1") "1"
           "dialogue_dataset.json" (world_of number_fs) TypeError).
  right. exists (JNum 7). split; [reflexivity|]. split; [exact I|reflexivity].
Defined.

(** X3.  The scan of lines 221 to 225 stops at the first match and trips
    over what it meets before: with an element that is not an object in
    front of the first experiment carrying the id, the lookup raises
    [AttributeError] although the id is there; with the match in front, what
    follows it is never looked at. *)
Theorem lookup_scans_in_order (id path : string) (w : World)
    (fields : list (string * json)) (before after : list json) (x : json) :
  nodes (fs w) !! path = Some (Doc (JObj fields)) →
  Dict.get "dataset" fields = Some (JArr (before ++ x :: after)) →
  forallb is_object before = true →
  existsb (has_id id) before = false →
  (is_object x = false →
   dialogue_exists_in_dataset id path w = (Raise AttributeError, w))
  ∧ (has_id id x = true →
     dialogue_exists_in_dataset id path w = (Ret true, w)).
Proof.
  intros Hnode Hget Hobj Hnone.
  assert (∀ r, scan_dataset id (x :: after) = r →
               scan_dataset id (before ++ x :: after) = r) as Hskip.
  { intros r <-. clear Hget. induction before as [|y before IH]; [done|].
    simpl in *. apply andb_true_iff in Hobj as [Hy Hobj].
    apply orb_false_iff in Hnone as [Hy' Hnone].
    rewrite (get_equals_object _ _ Hy), Hy'. by apply IH. }
  split; intros Hx; rewrite dialogue_exists_eq; f_equal; unfold_store;
    rewrite Hnode; simpl; rewrite Hget; simpl.
  - rewrite (Hskip (Raise AttributeError)); [done|]. by destruct x.
  - rewrite (Hskip (Ret true)); [done|]. simpl.
    destruct x; try done. simpl in *. by rewrite Hx.
Qed.

(** X3 at a checkpoint whose dataset is a stray string followed by
    experiment 1. *)
Lemma lookup_scans_in_order_witness :
  dialogue_exists_in_dataset "1" "dialogue_dataset.json" (world_of stray_fs)
  = (Raise AttributeError, world_of stray_fs).
Proof.
  destruct (lookup_scans_in_order "1" "dialogue_dataset.json"
              (world_of stray_fs)
              [("dataset",
                JArr [JStr "stray"; model_dump (sample_experiment "1")])]
              [] [model_dump (sample_experiment "1")] (JStr "stray"))
    as [Hraise _]; [reflexivity..|].
  apply Hraise. reflexivity.
Defined.

(** X4.  [save_dialogue_to_file] never raises and touches one path only:
    every other path keeps its node, the set of unwritable paths is the
    same, and neither the model nor the database is contacted. *)
Theorem save_touches_one_path (e : Experiment) (path : string) (w : World) :
  (save_dialogue_to_file e path w).1 = Ret tt
  ∧ sealed (fs (save_dialogue_to_file e path w).2) = sealed (fs w)
  ∧ (∀ q, q ≠ path →
          nodes (fs (save_dialogue_to_file e path w).2) !! q
          = nodes (fs w) !! q)
  ∧ invocations (trace (save_dialogue_to_file e path w).2)
    = invocations (trace w)
  ∧ statements (trace (save_dialogue_to_file e path w).2)
    = statements (trace w).
Proof.
  rewrite save_dialogue_to_file_eq. simpl.
  destruct (saved_world_trace e path w) as (l & -> & _).
  rewrite invocations_app, statements_app, !app_nil_r.
  destruct (saved_world_node e path w) as [->|[->|(doc & _ & ->)]];
    split_and!; try done; intros q Hq; simpl; by rewrite lookup_insert_ne.
Qed.











(** * Further properties of the validator *)

Lemma validator_feedback_nonempty (feedback : string) :
  validator_feedback feedback → feedback ≠ "".
Proof.
  intros [(errs & _ & ->)|(cause & ->)]; [|done].
  by destruct (feedback_of_starts errs) as [rest ->].
Qed.

Lemma gives_verdict_connection_error (cause : string) :
  gives_verdict (connection_error cause).
Proof. intros w. split; [right; by eexists|by eexists]. Qed.

Lemma gives_verdict_guarded answer record next :
  gives_verdict next → gives_verdict (guarded answer record next).
Proof.
  intros Hnext w. unfold guarded. rewrite !bind_eq. unfold ask, emit. simpl.
  destruct (answer (trace w)); [apply gives_verdict_connection_error|].
  apply Hnext.
Qed.

Lemma check_interactions_ret (db : Database) (todo : list Interaction)
    (sql_errors : list string) (w : World) :
  ∃ errs, (check_interactions db todo sql_errors w).1 = Ret errs.
Proof.
  destruct (check_interactions_spec db todo sql_errors w)
    as (answers & _ & Hret & _).
  by eexists.
Qed.

Lemma check_dialogue_sintax_shape (db : Database) (self : DialogueGenerator)
    (dialogue : Experiment) (w : World) :
  well_formed_verdict (check_dialogue_sintax db self dialogue w).1
  ∧ (∀ host port user pass service,
       settings_in (database_connection self) (fs w)
         host port user pass service →
       ∃ v, (check_dialogue_sintax db self dialogue w).1 = Ret v).
Proof.
  assert (∀ host port user pass service,
    gives_verdict
      (guarded (λ tr, connect db tr user pass host port service)
         (DbConnect user pass host port service)
         (guarded (cursor db) DbCursor
            (bind (check_interactions db (interactions dialogue) [])
               (λ sql_errors,
                  guarded (close_cursor db) DbCloseCursor
                    (guarded (close_connection db) DbCloseConnection
                       match sql_errors with
                       | [] => ret (true, "")
                       | _ :: _ => ret (false, feedback_of sql_errors)
                       end)))))) as Htry.
  { intros host port user pass service.
    do 2 apply gives_verdict_guarded. intros w1. rewrite bind_eq.
    destruct (check_interactions_ret db (interactions dialogue) [] w1)
      as [errs Herrs].
    destruct (check_interactions db (interactions dialogue) [] w1) as [r w2].
    simpl in Herrs. subst r.
    do 2 apply gives_verdict_guarded. intros w3.
    destruct errs as [|l ls]; (split; [|by eexists]); [done|].
    left. by exists (l :: ls). }
  unfold check_dialogue_sintax. rewrite bind_eq. split.
  - destruct (load_settings self w) as [[[[[[host port] user] pass] service]|e] w1];
      [|done].
    apply Htry.
  - intros host port user pass service Hset.
    rewrite (load_settings_ok _ _ _ _ _ _ _ Hset). apply Htry.
Qed.

(** X9.  [check_dialogue_sintax] can raise only while it loads the
    settings: whenever it returns, and always once the settings load, its
    verdict is [(true, "")] or [(false, feedback)] where [feedback] is the
    statement feedback for at least one error line or the connection
    message, and so is never empty. *)
Theorem verdict_is_well_formed (db : Database) (self : DialogueGenerator)
    (dialogue : Experiment) (w : World) :
  well_formed_verdict (check_dialogue_sintax db self dialogue w).1
  ∧ (∀ feedback,
       (check_dialogue_sintax db self dialogue w).1 = Ret (false, feedback) →
       feedback ≠ "")
  ∧ (∀ host port user pass service,
       settings_in (database_connection self) (fs w)
         host port user pass service →
       ∃ v, (check_dialogue_sintax db self dialogue w).1 = Ret v).
Proof.
  destruct (check_dialogue_sintax_shape db self dialogue w) as [Hshape Hret].
  split_and!; [done| |done].
  intros fb Hfb. rewrite Hfb in Hshape. by apply validator_feedback_nonempty.
Qed.

(** X9 at a database nobody listens for: a verdict all the same. *)
Lemma verdict_is_well_formed_witness :
  ∃ v, (check_dialogue_sintax refusing_db sample_generator mixed_experiment
          (world_of fresh_fs)).1 = Ret v.
Proof.
  destruct (verdict_is_well_formed refusing_db sample_generator
              mixed_experiment (world_of fresh_fs)) as (_ & _ & Hret).
  apply (Hret (JStr "localhost") (JNum 1521) (JStr "mondial") (JStr "secret")
           (JStr "XEPDB1")).
  eexists. split; [reflexivity|]. by vm_compute.
Defined.

(** X10.  Validation reads and reports, nothing more: it leaves the file
    system as it was and never asks the model, whatever the database
    answers and whether it returns or raises. *)
Theorem validation_is_read_only (db : Database) (self : DialogueGenerator)
    (dialogue : Experiment) (w : World) :
  fs (check_dialogue_sintax db self dialogue w).2 = fs w
  ∧ invocations (trace (check_dialogue_sintax db self dialogue w).2)
    = invocations (trace w).
Proof.
  destruct (check_dialogue_sintax_quiet db self dialogue w)
    as (Hfs & evs & -> & Hinv & _).
  split; [done|]. by rewrite invocations_app, Hinv, app_nil_r.
Qed.

(** X11.  The two [close] calls sit inside the outer [try]: when
    [cursor.close()] raises after the statements ran, the verdict is
    [(false, "Error connecting to the database: ...")] whatever the
    statements answered, the collected statement errors are dropped from
    the feedback, and yet every statement was sent. *)
Theorem close_failure_verdict (db : Database) (self : DialogueGenerator)
    (dialogue : Experiment) (w : World) (host port user pass service : json)
    (cause : string) :
  settings_in (database_connection self) (fs w) host port user pass service →
  (∀ tr, connect db tr user pass host port service = None) →
  (∀ tr, cursor db tr = None) →
  (∀ tr, close_cursor db tr = Some cause) →
  (check_dialogue_sintax db self dialogue w).1
  = Ret (false, "Error connecting to the database: " +:+ cause)
  ∧ (statements (trace (check_dialogue_sintax db self dialogue w).2)).*1
    = (statements (trace w)).*1 ++ (statement_of <$> interactions dialogue).
Proof.
  intros Hset Hcon Hcur Hclose.
  unfold check_dialogue_sintax. rewrite bind_eq.
  rewrite (load_settings_ok _ _ _ _ _ _ _ Hset).
  unfold guarded. rewrite !bind_eq. unfold ask, emit. simpl.
  rewrite Hcon. rewrite !bind_eq. simpl. rewrite Hcur. rewrite bind_eq.
  match goal with |- context [check_interactions db ?its ?e ?w1] =>
    destruct (check_interactions_spec db its e w1)
      as (answers & Hlen & Hret & Hst);
    destruct (check_interactions db its e w1) as [r w3] end.
  simpl in Hret, Hst. subst r. rewrite !bind_eq. simpl. rewrite Hclose.
  unfold connection_error, print, emit. rewrite bind_eq. simpl.
  split; [done|].
  rewrite !statements_app, Hst, !statements_app. simpl.
  rewrite !app_nil_r, fmap_app, fst_zip; [done|].
  rewrite length_fmap. lia.
Qed.

(** X11 at a dialogue whose two statements both pass. *)
Lemma close_failure_verdict_witness :
  (check_dialogue_sintax leaky_db sample_generator mixed_experiment
     (world_of fresh_fs)).1
  = Ret (false, "Error connecting to the database: "
                  +:+ "DPY-1001: not connected to database")
  ∧ (statements (trace (check_dialogue_sintax leaky_db sample_generator
                          mixed_experiment (world_of fresh_fs)).2)).*1
    = (statements (trace (world_of fresh_fs))).*1
      ++ (statement_of <$> interactions mixed_experiment).
Proof.
  apply (close_failure_verdict leaky_db sample_generator mixed_experiment
           (world_of fresh_fs)
           (JStr "localhost") (JNum 1521) (JStr "mondial") (JStr "secret")
           (JStr "XEPDB1") "DPY-1001: not connected to database").
  - eexists. split; [reflexivity|]. by vm_compute.
  - reflexivity.
  - reflexivity.
  - reflexivity.
Defined.

(** * Further properties of the generator loop *)

Section Retries.
Variable db : Database.
Variable py : Library.
Variable self : DialogueGenerator.

(** The prompts of the retry loop: the original prompt followed by a
    feedback each, never an empty one, at most [budget] of them, and all
    [budget] when the loop gives up. *)
Lemma retry_loop_prompts number prompt budget d v feedback (w : World) :
  (v = false → validator_feedback feedback) →
  ∃ evs feedbacks,
    trace (retry_loop db self number prompt budget d v feedback w).2
    = trace w ++ evs
    ∧ invocations evs = String.append prompt <$> feedbacks
    ∧ length feedbacks ≤ budget
    ∧ Forall validator_feedback feedbacks
    ∧ ∀ d', (retry_loop db self number prompt budget d v feedback w).1
            = Ret (d', false) →
            length feedbacks = budget.
Proof.
  revert d v feedback w.
  induction budget as [|budget IH]; intros d v fb w Hfb.
  { exists [], []. rewrite app_nil_r. by destruct v. }
  destruct v.
  { exists [], []. rewrite app_nil_r. simpl. split_and!; [done..|lia|done|done]. }
  change (retry_loop db self number prompt (S budget) d false fb)
    with (bind (print (LRetrying number (3 - S budget + 1)))
            (λ _, bind (generate_dialogue self (prompt +:+ fb))
               (λ d', bind (check_dialogue_sintax db self d')
                  (λ verdict,
                     let '(is_valid', feedback') := verdict in
                     retry_loop db self number prompt budget d'
                       is_valid' feedback')))).
  rewrite bind_eq. unfold print, emit. simpl.
  rewrite bind_eq, generate_dialogue_eq.
  match goal with |- context [dialogue_generator self ?tr ?p] =>
    destruct (dialogue_generator self tr p) as [d1|e] eqn:Hgen end.
  2: { eexists _, [fb]. unfold log. simpl. rewrite <- app_assoc.
       split_and!; [done|done|simpl; lia| |done].
       constructor; [by apply Hfb|done]. }
  rewrite bind_eq.
  match goal with |- context [check_dialogue_sintax db self d1 ?w2] =>
    destruct (check_dialogue_sintax_quiet db self d1 w2)
      as (_ & evc & Htrc & Hinvc & _);
    destruct (check_dialogue_sintax_shape db self d1 w2) as [Hshape _];
    destruct (check_dialogue_sintax db self d1 w2) as [[[v1 fb1]|e] w3] end;
    simpl in *.
  2: { eexists _, [fb]. rewrite Htrc, <- !app_assoc.
       split_and!; [done| |simpl; lia| |done].
       - rewrite !invocations_app, Hinvc. done.
       - constructor; [by apply Hfb|done]. }
  destruct (IH d1 v1 fb1 w3) as (evs & fbs & Htr & Hinv & Hlen & Hne & Hall).
  { intros ->. done. }
  exists ([Print (LRetrying number (3 - S budget + 1));
           Invoke (prompt +:+ fb) (Ret d1)] ++ evc ++ evs), (fb :: fbs).
  rewrite Htr, Htrc. simpl. rewrite <- !app_assoc.
  split_and!; [done| |simpl; lia| |].
  - rewrite !invocations_app, Hinvc, Hinv. done.
  - constructor; [by apply Hfb|done].
  - intros d' Hd'. simpl. f_equal. by eapply Hall.
Qed.

Lemma candidate_prompts i combination prompt (w : World) :
  create_prompt_from_join_combination_data py self i combination = Ret prompt →
  ∃ evs feedbacks,
    trace (candidate db py self i combination w).2 = trace w ++ evs
    ∧ invocations evs = prompt :: (String.append prompt <$> feedbacks)
    ∧ length feedbacks ≤ 3
    ∧ Forall validator_feedback feedbacks
    ∧ ∀ d, (candidate db py self i combination w).1 = Ret (d, false) →
           length feedbacks = 3.
Proof.
  intros Hprompt. unfold candidate. rewrite bind_eq. unfold lift.
  rewrite Hprompt. cbv beta iota.
  remember (retry_loop db self (i + 1) prompt 3) as loop eqn:Hloop.
  rewrite bind_eq, generate_dialogue_eq.
  destruct (dialogue_generator self (trace w) prompt) as [d0|e].
  2: { eexists _, []. split_and!; [done|done|simpl; lia|done|done]. }
  rewrite bind_eq. unfold print, emit. simpl. rewrite bind_eq.
  match goal with |- context [check_dialogue_sintax db self d0 ?w2] =>
    destruct (check_dialogue_sintax_quiet db self d0 w2)
      as (_ & evc & Htrc & Hinvc & _);
    destruct (check_dialogue_sintax_shape db self d0 w2) as [Hshape _];
    destruct (check_dialogue_sintax db self d0 w2) as [[[v0 fb0]|e] w3] end;
    simpl in Htrc, Hshape; cbv beta iota.
  2: { simpl. eexists _, []. rewrite Htrc, <- !app_assoc.
       split_and!; [done| |simpl; lia|done|done].
       by rewrite !invocations_app, Hinvc. }
  subst loop.
  destruct (retry_loop_prompts (i + 1) prompt 3 d0 v0 fb0 w3)
    as (evs & fbs & Htr & Hinv & Hlen & Hne & Hall).
  { by intros ->. }
  exists ([Invoke prompt (Ret d0); Print (LGenerated d0)] ++ evc ++ evs), fbs.
  rewrite Htr, Htrc. cbn [trace log app]. rewrite <- !app_assoc.
  split_and!; [done| |done..].
  change (prompt :: invocations (evc ++ evs)
          = prompt :: (String.append prompt <$> fbs)).
  by rewrite invocations_app, Hinvc, Hinv.
Qed.

End Retries.

(** X12.  The loop gives up only after all three retries: a generation
    that ends with an invalid verdict has asked the model exactly four
    times. *)
Theorem gives_up_after_four (db : Database) (py : Library)
    (self : DialogueGenerator) (i : nat) (combination : Combination)
    (w w' : World) (d : Experiment) :
  candidate db py self i combination w = (Ret (d, false), w') →
  ∃ evs, trace w' = trace w ++ evs ∧ length (invocations evs) = 4.
Proof.
  intros Hc.
  destruct (candidate_answered db py self i combination w d false w' Hc)
    as (prompt & Hprompt & _).
  destruct (candidate_prompts db py self i combination prompt w Hprompt)
    as (evs & fbs & Htr & Hinv & _ & _ & Hall).
  rewrite Hc in Htr, Hall. exists evs. split; [done|].
  rewrite Hinv. simpl. rewrite length_fmap. f_equal. by eapply Hall.
Qed.

(** X12 at a model that never corrects itself. *)
Lemma gives_up_after_four_witness :
  ∃ evs,
    trace (candidate strict_db plain_library hopeless_generator 0 country_city
             (world_of fresh_fs)).2
    = trace (world_of fresh_fs) ++ evs
    ∧ length (invocations evs) = 4.
Proof.
  apply (gives_up_after_four strict_db plain_library hopeless_generator 0
           country_city (world_of fresh_fs)
           (candidate strict_db plain_library hopeless_generator 0
              country_city (world_of fresh_fs)).2
           mixed_experiment).
  by vm_compute.
Defined.

(** X13.  Every prompt a generation sends starts with the prompt built
    for the combination: the first invocation sends it as it is, and each
    retry, at most three, sends it followed by one feedback text of the
    validator (the statement feedback or the connection message), which is
    never empty. *)
Theorem retries_extend_the_prompt (db : Database) (py : Library)
    (self : DialogueGenerator) (i : nat) (combination : Combination)
    (prompt : string) (w : World) :
  create_prompt_from_join_combination_data py self i combination = Ret prompt →
  ∃ evs feedbacks,
    trace (candidate db py self i combination w).2 = trace w ++ evs
    ∧ invocations evs = prompt :: (String.append prompt <$> feedbacks)
    ∧ length feedbacks ≤ 3
    ∧ Forall (λ f, validator_feedback f ∧ f ≠ "") feedbacks.
Proof.
  intros Hprompt.
  destruct (candidate_prompts db py self i combination prompt w Hprompt)
    as (evs & fbs & Htr & Hinv & Hlen & Hne & _).
  exists evs, fbs. split_and!; [done..|].
  eapply Forall_impl; [exact Hne|]. intros f Hf.
  split; [done|by apply validator_feedback_nonempty].
Qed.

(** X13 at a model that corrects itself on the first retry. *)
Lemma retries_extend_the_prompt_witness :
  ∃ evs feedbacks,
    trace (candidate strict_db plain_library correcting_generator 0
             country_city (world_of fresh_fs)).2
    = trace (world_of fresh_fs) ++ evs
    ∧ invocations evs
      = (match create_prompt_from_join_combination_data plain_library
                 correcting_generator 0 country_city with
         | Ret prompt => prompt
         | Raise _ => ""
         end)
        :: (String.append
              (match create_prompt_from_join_combination_data plain_library
                       correcting_generator 0 country_city with
               | Ret prompt => prompt
               | Raise _ => ""
               end) <$> feedbacks)
    ∧ length feedbacks ≤ 3
    ∧ Forall (λ f, validator_feedback f ∧ f ≠ "") feedbacks.
Proof.
  apply (retries_extend_the_prompt strict_db plain_library correcting_generator
           0 country_city).
  by vm_compute.
Defined.

(** ** Runs on a checkpoint *)




Section Runs.
Variable db : Database.
Variable py : Library.
Variable self : DialogueGenerator.



(** A run whose every lookup answers true does nothing but print. *)
Lemma for_loop_idle (i : nat) (todo : list Combination)
    (dialogues : list Experiment) (w : World) :
  (∀ j, j < length todo →
        (dialogue_exists_in_dataset (pretty (i + j + 1)) (output_file self) w).1
        = Ret true) →
  ∃ evs,
    for_loop db py self i todo dialogues w = (Ret dialogues, log w evs)
    ∧ invocations evs = []
    ∧ statements evs = []
    ∧ skips evs = (λ j, j + 1) <$> seq i (length todo).
Proof.
  revert i w. induction todo as [|c rest IH]; intros i w Hall.
  { exists []. unfold log. rewrite app_nil_r. by destruct w. }
  change (for_loop db py self i (c :: rest) dialogues)
    with (bind (loop_body db py self i c)
            (λ made, for_loop db py self (S i) rest
                       match made with
                       | Some dialogue => dialogues ++ [dialogue]
                       | None => dialogues
                       end)).
  rewrite bind_eq, loop_body_found.
  2: { specialize (Hall 0). rewrite Nat.add_0_r in Hall. apply Hall.
       simpl. lia. }
  match goal with |- context [for_loop db py self (S i) rest dialogues ?w1] =>
    destruct (IH (S i) w1) as (evs & Heq & Hinv & Hst & Hsk) end.
  { intros j Hj. rewrite (dialogue_exists_fs _ _ _ w) by done.
    replace (S i + j) with (i + S j) by lia. apply Hall. simpl. lia. }
  rewrite Heq. eexists. unfold log. simpl. rewrite <- app_assoc.
  split; [done|]. simpl. rewrite Hinv, Hst, Hsk. done.
Qed.

End Runs.

(** X14.  A run over combinations that the lookup all finds returns the
    empty list and does nothing but print: the file system is as before,
    the model is not asked, the database is not contacted, and one skip
    line is printed per combination, in order. *)
Theorem checkpointed_run_is_idle (db : Database) (py : Library)
    (self : DialogueGenerator) (w : World) :
  (∀ j, j < length (join_combination_data self) →
        (dialogue_exists_in_dataset (pretty (j + 1)) (output_file self) w).1
        = Ret true) →
  ∃ evs,
    create_dialogue_dataset db py self w = (Ret [], log w evs)
    ∧ invocations evs = []
    ∧ statements evs = []
    ∧ skips evs = (λ j, j + 1) <$> seq 0 (length (join_combination_data self)).
Proof. intros Hall. by apply for_loop_idle. Qed.

(** X14 on the second example scenario of section 8. *)
Lemma checkpointed_run_is_idle_witness :
  ∃ evs,
    create_dialogue_dataset refusing_db plain_library sample_generator
      (world_of resumed_fs)
    = (Ret [], log (world_of resumed_fs) evs)
    ∧ invocations evs = []
    ∧ statements evs = []
    ∧ skips evs = (λ j, j + 1) <$> seq 0 (length (join_combination_data sample_generator)).
Proof.
  apply (checkpointed_run_is_idle refusing_db plain_library sample_generator
           (world_of resumed_fs)).
  intros j Hj. destruct j as [|j]; [reflexivity|]. simpl in Hj. lia.
Defined.





(** ** Exceptions and outages in a turn *)

Lemma load_settings_broken (self : DialogueGenerator) (w : World) :
  settings_broken (database_connection self) (fs w) →
  ∃ e, load_settings self w = (Raise e, w).
Proof.
  unfold settings_broken, load_settings. rewrite bind_eq.
  unfold read_fs, lift, load_json. simpl.
  intros [Hn|[Hn|(fields & key & Hn & Hkey & Hget)]]; rewrite Hn; simpl;
    [by eexists..|].
  unfold bind. simpl.
  destruct (Dict.get "DB_HOST" fields) eqn:H1; simpl; [|by eexists].
  destruct (Dict.get "DB_PORT" fields) eqn:H2; simpl; [|by eexists].
  destruct (Dict.get "DB_USER_NAME" fields) eqn:H3; simpl; [|by eexists].
  destruct (Dict.get "DB_PASS" fields) eqn:H4; simpl; [|by eexists].
  destruct (Dict.get "SERVICE_NAME" fields) eqn:H5; simpl; [|by eexists].
  exfalso. unfold settings_keys in Hkey.
  repeat (apply elem_of_cons in Hkey as [->|Hkey]; [congruence|]).
  by apply elem_of_nil in Hkey.
Qed.

Lemma check_dialogue_sintax_refused (db : Database) (self : DialogueGenerator)
    (dialogue : Experiment) (w : World) (host port user pass service : json)
    (cause : string) :
  settings_in (database_connection self) (fs w) host port user pass service →
  connect db (trace w) user pass host port service = Some cause →
  check_dialogue_sintax db self dialogue w
  = (Ret (false, "Error connecting to the database: " +:+ cause),
     log w [DbConnect user pass host port service (Some cause);
            Print (LText ("Error connecting to the database: " +:+ cause))]).
Proof.
  intros Hset Hcon. unfold check_dialogue_sintax. rewrite bind_eq.
  rewrite (load_settings_ok _ _ _ _ _ _ _ Hset).
  unfold guarded, connection_error, bind, ask, emit, print, emit, ret, log;
    simpl.
  rewrite Hcon; simpl. by rewrite <- app_assoc.
Qed.

Section Outage.
Variable db : Database.
Variable py : Library.
Variable self : DialogueGenerator.
Variables host port user pass service : json.
Hypothesis refused :
  ∀ tr, ∃ cause, connect db tr user pass host port service = Some cause.
Hypothesis answers : ∀ tr prompt, ∃ d, dialogue_generator self tr prompt = Ret d.

Lemma retry_loop_outage number prompt budget d feedback (w : World) :
  settings_in (database_connection self) (fs w) host port user pass service →
  ∃ d' evs,
    retry_loop db self number prompt budget d false feedback w
    = (Ret (d', false), log w evs)
    ∧ length (invocations evs) = budget
    ∧ statements evs = [].
Proof.
  revert d feedback w. induction budget as [|budget IH]; intros d fb w Hset.
  { exists d, []. unfold log. rewrite app_nil_r. by destruct w. }
  change (retry_loop db self number prompt (S budget) d false fb)
    with (bind (print (LRetrying number (3 - S budget + 1)))
            (λ _, bind (generate_dialogue self (prompt +:+ fb))
               (λ d', bind (check_dialogue_sintax db self d')
                  (λ verdict,
                     let '(is_valid', feedback') := verdict in
                     retry_loop db self number prompt budget d'
                       is_valid' feedback')))).
  rewrite bind_eq. unfold print, emit. cbn [fst snd].
  rewrite bind_eq, generate_dialogue_eq.
  match goal with |- context [dialogue_generator self ?tr ?p] =>
    destruct (answers tr p) as [d1 ->] end.
  rewrite bind_eq.
  match goal with |- context [check_dialogue_sintax db self d1 ?w2] =>
    destruct (refused (trace w2)) as [cause Hcause];
    rewrite (check_dialogue_sintax_refused db self d1 w2 _ _ _ _ _ cause Hset Hcause);
    cbv beta iota;
    match goal with |- context [retry_loop db self number prompt budget d1 false ?f ?w3] =>
      destruct (IH d1 f w3 Hset) as (d' & evs & -> & Hlen & Hst)
    end
  end.
  eexists d', _. unfold log. cbn [fs trace]. rewrite <- !app_assoc.
  split; [done|]. cbn [app]. split.
  - change (S (length (invocations evs)) = S budget). by rewrite Hlen.
  - exact Hst.
Qed.

Lemma candidate_outage i combination prompt (w : World) :
  settings_in (database_connection self) (fs w) host port user pass service →
  create_prompt_from_join_combination_data py self i combination = Ret prompt →
  ∃ d evs,
    candidate db py self i combination w = (Ret (d, false), log w evs)
    ∧ length (invocations evs) = 4
    ∧ statements evs = [].
Proof.
  intros Hset Hprompt. unfold candidate. rewrite bind_eq. unfold lift.
  rewrite Hprompt. cbv beta iota.
  remember (retry_loop db self (i + 1) prompt 3) as loop eqn:Hloop.
  rewrite bind_eq, generate_dialogue_eq.
  destruct (answers (trace w) prompt) as [d0 ->].
  rewrite bind_eq. unfold print, emit. cbn [fst snd]. rewrite bind_eq.
  match goal with |- context [check_dialogue_sintax db self d0 ?w2] =>
    destruct (refused (trace w2)) as [cause Hcause];
    rewrite (check_dialogue_sintax_refused db self d0 w2 _ _ _ _ _ cause Hset Hcause)
  end.
  cbv beta iota. subst loop.
  match goal with |- context [retry_loop db self (i + 1) prompt 3 d0 false ?f ?w3] =>
    destruct (retry_loop_outage (i + 1) prompt 3 d0 f w3 Hset)
      as (d' & evs & -> & Hlen & Hst)
  end.
  eexists d', _. unfold log. cbn [fs trace]. rewrite <- !app_assoc.
  split; [done|]. cbn [app]. split.
  - change (S (length (invocations evs)) = 4). by rewrite Hlen.
  - exact Hst.
Qed.

End Outage.

(** X17.  A database that cannot be reached costs a combination the whole
    retry budget: with the settings in place, a model that answers and a
    connection that is refused every time, the generation asks the model
    four times, sends no statement, leaves the file system as it was and
    ends with an invalid verdict, so nothing is saved. *)
Theorem outage_spends_retries (db : Database) (py : Library)
    (self : DialogueGenerator) (host port user pass service : json)
    (i : nat) (combination : Combination) (prompt : string) (w : World) :
  (∀ tr, ∃ cause, connect db tr user pass host port service = Some cause) →
  (∀ tr p, ∃ d, dialogue_generator self tr p = Ret d) →
  settings_in (database_connection self) (fs w) host port user pass service →
  create_prompt_from_join_combination_data py self i combination = Ret prompt →
  ∃ d evs,
    candidate db py self i combination w = (Ret (d, false), log w evs)
    ∧ length (invocations evs) = 4
    ∧ statements evs = [].
Proof. intros. by eapply candidate_outage. Qed.

(** X17 at a database nobody listens for. *)
Lemma outage_spends_retries_witness :
  ∃ d evs,
    candidate refusing_db plain_library sample_generator 0 country_city
      (world_of fresh_fs)
    = (Ret (d, false), log (world_of fresh_fs) evs)
    ∧ length (invocations evs) = 4
    ∧ statements evs = [].
Proof.
  apply (outage_spends_retries refusing_db plain_library sample_generator
           (JStr "localhost") (JNum 1521) (JStr "mondial") (JStr "secret")
           (JStr "XEPDB1") 0 country_city
           ("Experiment {experiment_id}"
              +:+ String.concat "|"
                    ["1"; "country JOIN city ON country.code = city.country";
                     "2";
                     table_block plain_library sample_generator "country"
                       +:+ table_block plain_library sample_generator "city";
                     "country, city"])).
  - intros tr. by eexists.
  - intros tr p. by eexists.
  - eexists. split; [reflexivity|]. by vm_compute.
  - by vm_compute.
Defined.

(** X18.  An exception of the model is not caught anywhere: when the first
    invocation for a combination raises, the run ends with that exception
    at once.  The experiments gathered so far are not returned, the
    remaining combinations are not looked at, and the file system, with
    what earlier turns saved, is as the turn found it. *)
Theorem model_failure_ends_run (db : Database) (py : Library)
    (self : DialogueGenerator) (i : nat) (combination : Combination)
    (rest : list Combination) (dialogues : list Experiment) (w : World)
    (prompt : string) (e : exn) :
  (dialogue_exists_in_dataset (pretty (i + 1)) (output_file self) w).1
  = Ret false →
  create_prompt_from_join_combination_data py self i combination = Ret prompt →
  dialogue_generator self
    (trace w ++ [Print (LGenerating (i + 1) (length (join_combination_data self)))])
    prompt = Raise e →
  for_loop db py self i (combination :: rest) dialogues w
  = (Raise e,
     log w [Print (LGenerating (i + 1) (length (join_combination_data self)));
            Invoke prompt (Raise e)]).
Proof.
  intros Hnot Hprompt Hgen.
  change (for_loop db py self i (combination :: rest) dialogues)
    with (bind (loop_body db py self i combination)
            (λ made, for_loop db py self (S i) rest
                       match made with
                       | Some dialogue => dialogues ++ [dialogue]
                       | None => dialogues
                       end)).
  rewrite bind_eq, loop_body_not_found by done.
  unfold candidate. rewrite bind_eq. unfold lift. rewrite Hprompt.
  cbv beta iota.
  remember (retry_loop db self (i + 1) prompt 3) as loop eqn:Hloop.
  rewrite bind_eq, generate_dialogue_eq. cbn [trace log]. rewrite Hgen.
  unfold log. cbn [fs trace]. by rewrite <- app_assoc.
Qed.

(** X18 at a model that is out of service. *)
Lemma model_failure_ends_run_witness :
  for_loop steady_db plain_library failing_generator 0
    [country_city; country_city] [] (world_of fresh_fs)
  = (Raise (Failure "529 overloaded"),
     log (world_of fresh_fs)
       [Print (LGenerating 1 2);
        Invoke ("Experiment {experiment_id}"
                  +:+ String.concat "|"
                        ["1"; "country JOIN city ON country.code = city.country";
                         "2";
                         table_block plain_library failing_generator "country"
                           +:+ table_block plain_library failing_generator "city";
                         "country, city"])
          (Raise (Failure "529 overloaded"))]).
Proof.
  apply (model_failure_ends_run steady_db plain_library failing_generator 0
           country_city [country_city] [] (world_of fresh_fs)).
  - reflexivity.
  - by vm_compute.
  - reflexivity.
Defined.

(** X19.  The connection settings are read only when the first candidate
    is validated: with settings that are missing, not JSON or short of a
    key, the run still asks the model once for the first combination that
    is not checkpointed, and then ends with the exception of the settings.
    Nothing else happened: no database call, no retry, no save. *)
Theorem broken_settings_cost_a_call (db : Database) (py : Library)
    (self : DialogueGenerator) (i : nat) (combination : Combination)
    (rest : list Combination) (dialogues : list Experiment) (w : World)
    (prompt : string) (d : Experiment) :
  (dialogue_exists_in_dataset (pretty (i + 1)) (output_file self) w).1
  = Ret false →
  create_prompt_from_join_combination_data py self i combination = Ret prompt →
  dialogue_generator self
    (trace w ++ [Print (LGenerating (i + 1) (length (join_combination_data self)))])
    prompt = Ret d →
  settings_broken (database_connection self) (fs w) →
  ∃ e,
    for_loop db py self i (combination :: rest) dialogues w
    = (Raise e,
       log w [Print (LGenerating (i + 1) (length (join_combination_data self)));
              Invoke prompt (Ret d);
              Print (LGenerated d)]).
Proof.
  intros Hnot Hprompt Hgen Hbroken.
  change (for_loop db py self i (combination :: rest) dialogues)
    with (bind (loop_body db py self i combination)
            (λ made, for_loop db py self (S i) rest
                       match made with
                       | Some dialogue => dialogues ++ [dialogue]
                       | None => dialogues
                       end)).
  rewrite bind_eq, loop_body_not_found by done.
  unfold candidate. rewrite bind_eq. unfold lift. rewrite Hprompt.
  cbv beta iota.
  remember (retry_loop db self (i + 1) prompt 3) as loop eqn:Hloop.
  rewrite bind_eq, generate_dialogue_eq. cbn [trace log]. rewrite Hgen.
  cbv beta iota. rewrite bind_eq. unfold print, emit. cbn [fst snd].
  rewrite bind_eq. unfold check_dialogue_sintax. rewrite bind_eq.
  match goal with |- context [load_settings self ?w2] =>
    destruct (load_settings_broken self w2 Hbroken) as [e ->] end.
  exists e. unfold log. cbn [fs trace]. by rewrite <- !app_assoc.
Qed.

(** X19 at a settings file without the password. *)
Lemma broken_settings_cost_a_call_witness :
  ∃ e,
    for_loop steady_db plain_library sample_generator 0 [country_city] []
      (world_of no_password_fs)
    = (Raise e,
       log (world_of no_password_fs)
         [Print (LGenerating 1 1);
          Invoke ("Experiment {experiment_id}"
                    +:+ String.concat "|"
                          ["1"; "country JOIN city ON country.code = city.country";
                           "2";
                           table_block plain_library sample_generator "country"
                             +:+ table_block plain_library sample_generator "city";
                           "country, city"])
            (Ret (sample_experiment "1"));
          Print (LGenerated (sample_experiment "1"))]).
Proof.
  apply (broken_settings_cost_a_call steady_db plain_library sample_generator
           0 country_city [] [] (world_of no_password_fs)).
  - reflexivity.
  - by vm_compute.
  - reflexivity.
  - right. right. eexists _, "DB_PASS". split; [reflexivity|].
    split; [|reflexivity]. apply list_elem_of_In. simpl. tauto.
Defined.

(** * Further properties of the prompt builder *)

Lemma tables_context_loop_blocks (py : Library) (self : DialogueGenerator)
    (tables_involved : list string) (tables_context : string) :
  (∀ table, table ∈ tables_involved →
            is_Some (table_column_values_hashmap self !! table)) →
  tables_context_loop py self tables_involved tables_context
  = Ret (tables_context
           +:+ foldr String.append "" (table_block py self <$> tables_involved)).
Proof.
  revert tables_context.
  induction tables_involved as [|t rest IH]; intros ctx Hall.
  { simpl. by rewrite append_nil_r. }
  destruct (Hall t) as [cols Hcols]; [apply elem_of_cons; by left|].
  simpl. rewrite Hcols. simpl. rewrite IH.
  - f_equal. unfold table_block at 2. rewrite Hcols. simpl.
    by rewrite !append_assoc.
  - intros table Hin. apply Hall. apply elem_of_cons. by right.
Qed.

(** X20.  Whenever the prompt builder returns a prompt, every table of the
    combination had an entry in the example-values lookup, and the prompt
    is what [str.format] made of the template and five fields: the 1-based
    index, the join text, the number of distinct tables, one block per
    table in the order given (repeated for a repeated table, with ["DDL
    not found"] for a table without DDL), and the comma-joined table
    names. *)
Theorem prompt_fields (py : Library) (self : DialogueGenerator) (i : nat)
    (combination : Combination) (prompt : string) :
  create_prompt_from_join_combination_data py self i combination = Ret prompt →
  (∀ table, table ∈ tables combination →
            is_Some (table_column_values_hashmap self !! table))
  ∧ str_format py (dialogue_generation_prompt self)
      [("experiment_id", pretty (i + 1));
       ("join_str", combination_str combination);
       ("joins_len", pretty (length (remove_dups (tables combination))));
       ("tables_context",
        foldr String.append "" (table_block py self <$> tables combination));
       ("tables_involved", String.concat ", " (tables combination))]
    = Ret prompt.
Proof.
  intros Hprompt.
  assert (∀ table, table ∈ tables combination →
                   is_Some (table_column_values_hashmap self !! table))
    as Hall.
  { intros table Hin.
    destruct (table_column_values_hashmap self !! table) eqn:Ht; [done|].
    unfold create_prompt_from_join_combination_data in Hprompt.
    rewrite (tables_context_loop_missing py self (tables combination) "")
      in Hprompt; [done|by exists table]. }
  split; [done|]. rewrite <- Hprompt.
  unfold create_prompt_from_join_combination_data.
  by rewrite (tables_context_loop_blocks py self _ "" Hall).
Qed.

(** X20 at a generator object without any DDL. *)
Lemma prompt_fields_witness :
  (∀ table, table ∈ tables country_city →
            is_Some (table_column_values_hashmap correcting_generator !! table))
  ∧ str_format plain_library (dialogue_generation_prompt correcting_generator)
      [("experiment_id", pretty (0 + 1));
       ("join_str", combination_str country_city);
       ("joins_len", pretty (length (remove_dups (tables country_city))));
       ("tables_context",
        foldr String.append ""
          (table_block plain_library correcting_generator
             <$> tables country_city));
       ("tables_involved", String.concat ", " (tables country_city))]
    = Ret ("Experiment {experiment_id}"
             +:+ String.concat "|"
                   ["1"; "country JOIN city ON country.code = city.country";
                    "2";
                    table_block plain_library correcting_generator "country"
                      +:+ table_block plain_library correcting_generator "city";
                    "country, city"]).
Proof.
  apply (prompt_fields plain_library correcting_generator 0 country_city).
  by vm_compute.
Defined.
